(** * Payment-allocation calculator of the pymt Lightning Web Components

    A shallow embedding of the client-side allocation arithmetic:

    - [InvoiceSelector] (second class of
      [lwc/callCenterPayment/callCenterPayment.js]): the invoice selection
      map, its handlers and [notifySelectionChange];
    - [AccountPayment] ([lwc/accountPayment/accountPayment.js]): the credit
      handlers and the [allocationsForPayment] getter;
    - [InvoicePayment] (the single-invoice component): the partial-amount
      handler and the getters around it.

    Numbers.  A JavaScript number that is finite is an integer multiple of
    [2^-1074]; amounts are modelled as [Z] counting a fixed unit of that
    kind, with exact [+] and [-] (the decimal arithmetic the design asks
    for; rounding of binary floating point is not modelled).  [NaN] is
    modelled where the code meets it, at the result of [parseFloat] and at
    absent record fields, as [None]; infinities are left out. *)

From Stdlib Require Import ZArith NArith List Ascii String Bool Lia.
Import ListNotations.
Open Scope Z_scope.

(** ** JavaScript helpers *)

(** [x || 0] on a number: [NaN] (and [undefined], [null]) and [0] give [0],
    any other number is kept. *)
Definition orZero (x : option Z) : Z :=
  match x with
  | Some z => z
  | None => 0
  end.

(** [Math.min] and [Math.max] on finite numbers. *)
Definition Math_min (a b : Z) : Z := Z.min a b.
Definition Math_max (a b : Z) : Z := Z.max a b.
Definition Math_min3 (a b c : Z) : Z := Z.min (Z.min a b) c.

(** ** A state monad for callbacks that update a captured variable *)

Module St.

Definition t (S A : Type) : Type := S -> A * S.

Definition ret {S A} (a : A) : t S A := fun s => (a, s).

Definition bind {S A B} (m : t S A) (k : A -> t S B) : t S B :=
  fun s => let (a, s') := m s in k a s'.

Definition get {S} : t S S := fun s => (s, s).

Definition put {S} (s' : S) : t S unit := fun _ => (tt, s').

(** [Array.prototype.map] with an effectful callback: elements are
    visited from left to right. *)
Fixpoint mapM {S A B} (f : A -> t S B) (l : list A) : t S (list B) :=
  match l with
  | [] => ret []
  | x :: xs =>
      bind (f x) (fun y => bind (mapM f xs) (fun ys => ret (y :: ys)))
  end.

(** [Array.prototype.forEach] with an effectful callback. *)
Fixpoint forEach {S A} (f : A -> t S unit) (l : list A) : t S unit :=
  match l with
  | [] => ret tt
  | x :: xs => bind (f x) (fun _ => forEach f xs)
  end.

End St.

Notation "x <- m ;; k" := (St.bind m (fun x => k))
  (at level 61, m at next level, right associativity).
Notation "m ;;; k" := (St.bind m (fun _ => k))
  (at level 61, right associativity).

(** ** The JavaScript [Map], keyed by strings, in insertion order *)

Module JSMap.

Definition t (V : Type) : Type := list (string * V).

Definition empty {V} : t V := [].

Fixpoint has {V} (k : string) (m : t V) : bool :=
  match m with
  | [] => false
  | (k', _) :: m' => if String.eqb k' k then true else has k m'
  end.

Fixpoint get {V} (k : string) (m : t V) : option V :=
  match m with
  | [] => None
  | (k', v) :: m' => if String.eqb k' k then Some v else get k m'
  end.

(** [set] keeps the position of a key that is present and appends a new
    key at the end. *)
Fixpoint set {V} (k : string) (v : V) (m : t V) : t V :=
  match m with
  | [] => [(k, v)]
  | (k', v') :: m' =>
      if String.eqb k' k then (k', v) :: m' else (k', v') :: set k v m'
  end.

Fixpoint delete {V} (k : string) (m : t V) : t V :=
  match m with
  | [] => []
  | (k', v') :: m' =>
      if String.eqb k' k then m' else (k', v') :: delete k m'
  end.

Definition clear {V} (_ : t V) : t V := [].

Definition values {V} (m : t V) : list V := map snd m.

Definition keys {V} (m : t V) : list string := map fst m.

Definition size {V} (m : t V) : nat := List.length m.

(** Keys of a [Map] are unique. *)
Definition wf {V} (m : t V) : Prop := NoDup (keys m).

End JSMap.

(** ** Allocation records *)

Record Allocation : Type := mkAllocation {
  invoiceId : string;
  amount : Z;
  isFullPayment : bool
}.

(** [{ ...alloc, amount: a }] *)
Definition withAmount (alloc : Allocation) (a : Z) : Allocation :=
  {| invoiceId := invoiceId alloc;
     amount := a;
     isFullPayment := isFullPayment alloc |}.

(** [allocations.reduce((sum, a) => sum + a.amount, 0)] *)
Definition reduceAmounts (allocations : list Allocation) : Z :=
  fold_left (fun sum a => sum + amount a) allocations 0.

(** The [detail] of the [selectionchange] event. *)
Record SelectionDetail : Type := mkDetail {
  allocations : list Allocation;
  detailTotalAmount : Z;
  detailInvoiceCount : nat
}.

(** ** InvoiceSelector *)

Module InvoiceSelector.

(** A row of [this.invoices].  The formatted strings, the dates and the
    status are display data that no handler below reads; they are left
    out. *)
Record Invoice : Type := mkInvoice {
  id : string;
  totalAmount : Z;
  amountPaid : Z;
  balanceDue : Z;
  selected : bool;
  paymentType : string;
  paymentAmount : Z
}.

Definition withSelected (inv : Invoice) (b : bool) : Invoice :=
  {| id := id inv; totalAmount := totalAmount inv;
     amountPaid := amountPaid inv; balanceDue := balanceDue inv;
     selected := b; paymentType := paymentType inv;
     paymentAmount := paymentAmount inv |}.

Definition withPaymentType (inv : Invoice) (p : string) : Invoice :=
  {| id := id inv; totalAmount := totalAmount inv;
     amountPaid := amountPaid inv; balanceDue := balanceDue inv;
     selected := selected inv; paymentType := p;
     paymentAmount := paymentAmount inv |}.

Definition withPaymentAmount (inv : Invoice) (a : Z) : Invoice :=
  {| id := id inv; totalAmount := totalAmount inv;
     amountPaid := amountPaid inv; balanceDue := balanceDue inv;
     selected := selected inv; paymentType := paymentType inv;
     paymentAmount := a |}.

Record State : Type := mkState {
  invoices : list Invoice;
  selectedInvoices : JSMap.t Allocation
}.

(** [this.invoices.find(i => i.id === invoiceId)] *)
Definition findInvoice (invoiceId : string) (l : list Invoice)
  : option Invoice :=
  find (fun i => String.eqb (id i) invoiceId) l.

Definition notifySelectionChange (s : State) : SelectionDetail :=
  let allocations := JSMap.values (selectedInvoices s) in
  let totalAmount := reduceAmounts allocations in
  {| allocations := allocations;
     detailTotalAmount := totalAmount;
     detailInvoiceCount := List.length allocations |}.

(** [handleInvoiceSelect]: [None] is the [TypeError] of
    [invoice.balanceDue] when [find] returns [undefined]; the map is then
    untouched and no event is dispatched. *)
Definition handleInvoiceSelect (invoiceId : string) (checked : bool)
  (s : State) : option (State * SelectionDetail) :=
  let invoices' :=
    map (fun inv =>
           if String.eqb (id inv) invoiceId then withSelected inv checked
           else inv)
        (invoices s) in
  if checked then
    match findInvoice invoiceId invoices' with
    | Some invoice =>
        let s' :=
          {| invoices := invoices';
             selectedInvoices :=
               JSMap.set invoiceId
                 {| invoiceId := invoiceId;
                    amount := balanceDue invoice;
                    isFullPayment := true |}
                 (selectedInvoices s) |} in
        Some (s', notifySelectionChange s')
    | None => None
    end
  else
    let s' :=
      {| invoices := invoices';
         selectedInvoices := JSMap.delete invoiceId (selectedInvoices s) |} in
    Some (s', notifySelectionChange s').

(** The callback of [handlePaymentTypeChange]; it updates
    [this.selectedInvoices] while mapping over the rows. *)
Definition paymentTypeRow (invoiceId paymentType : string) (inv : Invoice)
  : St.t (JSMap.t Allocation) Invoice :=
  if String.eqb (id inv) invoiceId then
    let isFullPayment := String.eqb paymentType "full" in
    let amount := if isFullPayment then balanceDue inv
                  else paymentAmount inv in
    sel <- St.get ;;
    (if JSMap.has invoiceId sel then
       St.put (JSMap.set invoiceId
                 {| invoiceId := invoiceId; amount := amount;
                    isFullPayment := isFullPayment |} sel)
     else St.ret tt) ;;;
    St.ret (withPaymentType inv paymentType)
  else St.ret inv.

Definition handlePaymentTypeChange (invoiceId paymentType : string)
  (s : State) : State * SelectionDetail :=
  let (invoices', sel') :=
    St.mapM (paymentTypeRow invoiceId paymentType) (invoices s)
      (selectedInvoices s) in
  let s' := {| invoices := invoices'; selectedInvoices := sel' |} in
  (s', notifySelectionChange s').

(** [Math.min(Math.max(0, amount), inv.balanceDue)] *)
Definition validAmount (amount balanceDue : Z) : Z :=
  Math_min (Math_max 0 amount) balanceDue.

(** The callback of [handlePartialAmountChange]. *)
Definition partialAmountRow (invoiceId : string) (amount : Z)
  (inv : Invoice) : St.t (JSMap.t Allocation) Invoice :=
  if String.eqb (id inv) invoiceId then
    let validAmount := validAmount amount (balanceDue inv) in
    sel <- St.get ;;
    (if JSMap.has invoiceId sel then
       St.put (JSMap.set invoiceId
                 {| invoiceId := invoiceId; amount := validAmount;
                    isFullPayment := false |} sel)
     else St.ret tt) ;;;
    St.ret (withPaymentAmount inv validAmount)
  else St.ret inv.

(** [value] is the result of [parseFloat(event.target.value)], [None]
    for [NaN]. *)
Definition handlePartialAmountChange (invoiceId : string)
  (value : option Z) (s : State) : State * SelectionDetail :=
  let amount := orZero value in
  let (invoices', sel') :=
    St.mapM (partialAmountRow invoiceId amount) (invoices s)
      (selectedInvoices s) in
  let s' := {| invoices := invoices'; selectedInvoices := sel' |} in
  (s', notifySelectionChange s').

Definition selectAllRow (inv : Invoice) : St.t (JSMap.t Allocation) unit :=
  sel <- St.get ;;
  St.put (JSMap.set (id inv)
            {| invoiceId := id inv; amount := balanceDue inv;
               isFullPayment := true |} sel).

Definition handleSelectAll (checked : bool) (s : State)
  : State * SelectionDetail :=
  let invoices' := map (fun inv => withSelected inv checked) (invoices s) in
  let sel' :=
    if checked then snd (St.forEach selectAllRow invoices' (selectedInvoices s))
    else JSMap.clear (selectedInvoices s) in
  let s' := {| invoices := invoices'; selectedInvoices := sel' |} in
  (s', notifySelectionChange s').

Definition getSelections (s : State) : list Allocation :=
  JSMap.values (selectedInvoices s).

Definition selectedCount (s : State) : nat :=
  JSMap.size (selectedInvoices s).

(** The component as first rendered: rows loaded, nothing selected. *)
Definition initial (rows : list Invoice) : State :=
  {| invoices := rows; selectedInvoices := JSMap.empty |}.

(** A row as [getOpenInvoices] returns it (due date and status left out,
    as in [Invoice]). *)
Record OpenInvoice : Type := mkOpenInvoice {
  openId : string;
  openTotalAmount : Z;
  openAmountPaid : Z;
  openBalanceDue : Z
}.

(** The callback of the [map] in [loadInvoices]. *)
Definition loadRow (inv : OpenInvoice) : Invoice :=
  {| id := openId inv; totalAmount := openTotalAmount inv;
     amountPaid := openAmountPaid inv; balanceDue := openBalanceDue inv;
     selected := false; paymentType := "full";
     paymentAmount := openBalanceDue inv |}.

(** [loadInvoices] once [getOpenInvoices] has resolved with [data]: the
    rows are replaced, the selection map is not touched. *)
Definition loadInvoices (data : list OpenInvoice) (s : State) : State :=
  {| invoices := map loadRow data;
     selectedInvoices := selectedInvoices s |}.

Definition clearSelections (s : State) : State * SelectionDetail :=
  let sel' := JSMap.clear (selectedInvoices s) in
  let invoices' :=
    map (fun inv =>
           withPaymentAmount
             (withPaymentType (withSelected inv false) "full")
             (balanceDue inv))
        (invoices s) in
  let s' := {| invoices := invoices'; selectedInvoices := sel' |} in
  (s', notifySelectionChange s').

(** [getTotalAmount]: [forEach] over the map, adding to a local [total]. *)
Definition getTotalAmount (s : State) : Z :=
  snd (St.forEach
         (fun sel : Allocation =>
            total <- St.get ;; St.put (total + amount sel))
         (JSMap.values (selectedInvoices s)) 0).

Definition allSelected (s : State) : bool :=
  (0 <? List.length (invoices s))%nat && forallb selected (invoices s).

(** The user events of the component and the method [clearSelections]. *)
Inductive Event : Type :=
| InvoiceSelect (invoiceId : string) (checked : bool)
| PaymentTypeChange (invoiceId : string) (value : string)
| PartialAmountChange (invoiceId : string) (value : option Z)
| SelectAll (checked : bool)
| ClearSelections.

(** One event; [None] when the handler throws. *)
Definition step (e : Event) (s : State) : option (State * SelectionDetail) :=
  match e with
  | InvoiceSelect invoiceId checked => handleInvoiceSelect invoiceId checked s
  | PaymentTypeChange invoiceId value =>
      Some (handlePaymentTypeChange invoiceId value s)
  | PartialAmountChange invoiceId value =>
      Some (handlePartialAmountChange invoiceId value s)
  | SelectAll checked => Some (handleSelectAll checked s)
  | ClearSelections => Some (clearSelections s)
  end.

(** A sequence of events, each handled to its end; a handler that throws
    leaves the state as it was (the rows it reassigned are the same rows)
    and the next event is handled from there. *)
Fixpoint run (es : list Event) (s : State) : State :=
  match es with
  | [] => s
  | e :: es' =>
      match step e s with
      | Some (s', _) => run es' s'
      | None => run es' s
      end
  end.

End InvoiceSelector.

(** ** AccountPayment *)

Module AccountPayment.

(** An account credit as returned by [getAccountCredits]; only
    [remainingBalance] is read. *)
Record Credit : Type := mkCredit {
  remainingBalance : Z
}.

(** The tracked fields of the component that the credit logic reads or
    writes (step, gateways and payment result are left out). *)
Record State : Type := mkState {
  accountCredits : list Credit;
  applyCredits : bool;
  creditAmountToApply : Z;
  invoiceAllocations : list Allocation;
  totalAmount : Z;
  invoiceCount : nat
}.

(** The component as constructed. *)
Definition initial (credits : list Credit) : State :=
  {| accountCredits := credits; applyCredits := false;
     creditAmountToApply := 0; invoiceAllocations := [];
     totalAmount := 0; invoiceCount := 0%nat |}.

(** [this.accountCredits.reduce((sum, c) => sum + c.remainingBalance, 0)] *)
Definition totalAvailableCredit (s : State) : Z :=
  fold_left (fun sum c => sum + remainingBalance c) (accountCredits s) 0.

Definition handleInvoiceSelectionChange (detail : SelectionDetail)
  (s : State) : State :=
  {| accountCredits := accountCredits s;
     applyCredits := applyCredits s;
     creditAmountToApply := creditAmountToApply s;
     invoiceAllocations := allocations detail;
     totalAmount := detailTotalAmount detail;
     invoiceCount := detailInvoiceCount detail |}.

Definition handleApplyCreditsChange (checked : bool) (s : State) : State :=
  {| accountCredits := accountCredits s;
     applyCredits := checked;
     creditAmountToApply :=
       if negb checked then 0
       else Math_min (totalAvailableCredit s) (totalAmount s);
     invoiceAllocations := invoiceAllocations s;
     totalAmount := totalAmount s;
     invoiceCount := invoiceCount s |}.

(** [value] is the result of [parseFloat(event.target.value)], [None]
    for [NaN]. *)
Definition handleCreditAmountChange (value : option Z) (s : State) : State :=
  {| accountCredits := accountCredits s;
     applyCredits := applyCredits s;
     creditAmountToApply :=
       Math_min3 (orZero value) (totalAvailableCredit s) (totalAmount s);
     invoiceAllocations := invoiceAllocations s;
     totalAmount := totalAmount s;
     invoiceCount := invoiceCount s |}.

Definition amountAfterCredits (s : State) : Z :=
  Math_max 0 (totalAmount s - creditAmountToApply s).

Definition paymentAmount (s : State) : Z := amountAfterCredits s.

(** The callback of the [map] in [allocationsForPayment]; the captured
    [remainingCredit] is the state. *)
Definition creditRow (alloc : Allocation) : St.t Z Allocation :=
  remainingCredit <- St.get ;;
  let creditForInvoice := Math_min remainingCredit (amount alloc) in
  St.put (remainingCredit - creditForInvoice) ;;;
  St.ret (withAmount alloc (amount alloc - creditForInvoice)).

(** The [map] of [allocationsForPayment], before its [filter]. *)
Definition distributeCredit (credit : Z) (allocs : list Allocation)
  : list Allocation :=
  fst (St.mapM creditRow allocs credit).

Definition allocationsForPayment (s : State) : list Allocation :=
  if negb (applyCredits s) || (creditAmountToApply s <=? 0) then
    invoiceAllocations s
  else
    let remainingCredit := creditAmountToApply s in
    filter (fun alloc => 0 <? amount alloc)
      (distributeCredit remainingCredit (invoiceAllocations s)).

(** A gateway as [getActiveGateways] returns it. *)
Record Gateway : Type := mkGateway {
  gatewayId : string;
  gatewayName : string;
  gatewayType : string;
  isDefault : bool
}.

(** [loadGateways] once [getActiveGateways] has resolved with [gateways]:
    the value left in [selectedGatewayId] ([None] is [undefined]). *)
Definition loadGateways (gateways : list Gateway)
  (selectedGatewayId : option string) : option string :=
  match gateways with
  | [] => selectedGatewayId
  | first :: _ =>
      let defaultGateway :=
        match find isDefault gateways with
        | Some g => g
        | None => first
        end in
      Some (gatewayId defaultGateway)
  end.

End AccountPayment.

(** ** InvoicePayment *)

Module InvoicePayment.

(** [invoiceBalance] is [getFieldValue(this.invoice.data, INVOICE_BALANCE)],
    [None] while the record is not loaded or the field is empty. *)
Record State : Type := mkState {
  recordId : string;
  invoiceBalance : option Z;
  paymentType : string;
  partialAmount : Z
}.

Definition balanceDue (s : State) : Z := orZero (invoiceBalance s).

Definition paymentAmount (s : State) : Z :=
  if String.eqb (paymentType s) "full" then balanceDue s
  else partialAmount s.

Definition invoiceAllocations (s : State) : list Allocation :=
  [ {| invoiceId := recordId s;
       amount := paymentAmount s;
       isFullPayment := String.eqb (paymentType s) "full" |} ].

Definition canSubmit (s : State) : bool :=
  if balanceDue s <=? 0 then false
  else if String.eqb (paymentType s) "partial" && (partialAmount s <=? 0)
       then false
  else true.

Definition handlePaymentTypeChange (value : string) (s : State) : State :=
  {| recordId := recordId s;
     invoiceBalance := invoiceBalance s;
     paymentType := value;
     partialAmount := if String.eqb value "full" then 0 else balanceDue s |}.

(** [value] is the result of [parseFloat(event.target.value)], [None]
    for [NaN]. *)
Definition handlePartialAmountChange (value : option Z) (s : State) : State :=
  {| recordId := recordId s;
     invoiceBalance := invoiceBalance s;
     paymentType := paymentType s;
     partialAmount := Math_min (orZero value) (balanceDue s) |}.

(** The component as constructed, with the invoice record wired. *)
Definition initial (recordId : string) (invoiceBalance : option Z) : State :=
  {| recordId := recordId; invoiceBalance := invoiceBalance;
     paymentType := "full"; partialAmount := 0 |}.

(** The user events on the payment choice. *)
Inductive Event : Type :=
| PaymentTypeChange (value : string)
| PartialAmountChange (value : option Z).

Definition step (e : Event) (s : State) : State :=
  match e with
  | PaymentTypeChange value => handlePaymentTypeChange value s
  | PartialAmountChange value => handlePartialAmountChange value s
  end.

Definition run (es : list Event) (s : State) : State :=
  fold_left (fun s e => step e s) es s.

(** The values of [paymentTypeOptions]. *)
Definition fromOptions (e : Event) : Prop :=
  match e with
  | PaymentTypeChange value => value = "full"%string \/ value = "partial"%string
  | PartialAmountChange _ => True
  end.

End InvoicePayment.

(** ** Text and patterns *)

(** A JavaScript string as its sequence of UTF-16 code units. *)
Definition jsString : Type := list N.

Definition code (a : Ascii.ascii) : N := Ascii.N_of_ascii a.

Arguments code a%_char.

(** The code units of a literal made of ASCII characters. *)
Definition codes (s : string) : jsString :=
  map code (list_ascii_of_string s).

Module RegExp.

Local Open Scope N_scope.

(** The patterns the components use: a character, a range, a sequence,
    an alternative. *)
Inductive t : Type :=
| Chr (c : N)
| Range (lo hi : N)
| Cat (a b : t)
| Alt (a b : t).

(** What is left of [s] after each way of matching [r] at its start. *)
Fixpoint rests (r : t) (s : jsString) : list jsString :=
  match r with
  | Chr c =>
      match s with
      | x :: s' => if x =? c then [s'] else []
      | [] => []
      end
  | Range lo hi =>
      match s with
      | x :: s' => if (lo <=? x) && (x <=? hi) then [s'] else []
      | [] => []
      end
  | Cat a b => flat_map (rests b) (rests a s)
  | Alt a b => rests a s ++ rests b s
  end.

(** [/^r/.test(s)] *)
Definition test (r : t) (s : jsString) : bool :=
  match rests r s with
  | [] => false
  | _ :: _ => true
  end.

(** The class [\d]. *)
Definition isDigit (c : N) : bool := (48 <=? c) && (c <=? 57).

(** The class [\s]: white space and line terminators. *)
Definition isWhiteSpace (c : N) : bool :=
  (c =? 9) || (c =? 10) || (c =? 11) || (c =? 12) || (c =? 13)
  || (c =? 32) || (c =? 160) || (c =? 5760)
  || ((8192 <=? c) && (c <=? 8202))
  || (c =? 8232) || (c =? 8233) || (c =? 8239) || (c =? 8287)
  || (c =? 12288) || (c =? 65279).

(** [s.replace(/C/g, '')] for a class [C] of single code units. *)
Definition removeAll (inClass : N -> bool) (s : jsString) : jsString :=
  filter (fun c => negb (inClass c)) s.

End RegExp.

(** ** CallCenterPayment: the cart *)

Module CallCenterPayment.

(** A number that may be [NaN] ([None]): quantities come from [parseInt]. *)
Definition num : Type := option Z.

Definition numAdd (a b : num) : num :=
  match a, b with
  | Some x, Some y => Some (x + y)
  | _, _ => None
  end.

Definition numMul (a b : num) : num :=
  match a, b with
  | Some x, Some y => Some (x * y)
  | _, _ => None
  end.

(** [n <= 0], false on [NaN]. *)
Definition numLe0 (n : num) : bool :=
  match n with
  | Some x => x <=? 0
  | None => false
  end.

(** A product as [searchProducts] returns it; its unit price is taken to
    be a number. *)
Record Product : Type := mkProduct {
  prodId : string;
  prodName : string;
  prodCode : string;
  prodUnitPrice : Z
}.

Record CartItem : Type := mkCartItem {
  productId : string;
  productName : string;
  productCode : string;
  quantity : num;
  unitPrice : Z;
  totalPrice : num
}.

Record State : Type := mkState {
  productSearchTerm : string;
  productResults : list Product;
  cartItems : list CartItem
}.

(** The component as constructed. *)
Definition initial : State :=
  {| productSearchTerm := ""; productResults := []; cartItems := [] |}.

(** [item.quantity = q; item.totalPrice = item.quantity * item.unitPrice] *)
Definition withQuantity (item : CartItem) (q : num) : CartItem :=
  {| productId := productId item; productName := productName item;
     productCode := productCode item; quantity := q;
     unitPrice := unitPrice item;
     totalPrice := numMul q (Some (unitPrice item)) |}.

(** The object that [find] returns is an element of the array: an
    assignment to its fields changes the first element that matches. *)
Fixpoint mutateFound (p : CartItem -> bool) (f : CartItem -> CartItem)
  (l : list CartItem) : list CartItem :=
  match l with
  | [] => []
  | x :: xs => if p x then f x :: xs else x :: mutateFound p f xs
  end.

Definition inCart (target : string) (item : CartItem) : bool :=
  String.eqb (productId item) target.

Definition cartTotal (s : State) : num :=
  fold_left
    (fun total item =>
       numAdd total (numMul (quantity item) (Some (unitPrice item))))
    (cartItems s) (Some 0).

Definition hasCartItems (s : State) : bool :=
  (0 <? List.length (cartItems s))%nat.

(** [performProductSearch] once [searchProducts] has resolved. *)
Definition searchResolved (results : list Product) (s : State) : State :=
  {| productSearchTerm := productSearchTerm s;
     productResults := results;
     cartItems := cartItems s |}.

(** [addToCart]: [None] is the [TypeError] of [product.id] when the
    product is neither in the cart nor among the search results; nothing
    has been assigned by then. *)
Definition addToCart (target : string) (s : State) : option State :=
  let product :=
    find (fun p => String.eqb (prodId p) target) (productResults s) in
  let existingItem := find (inCart target) (cartItems s) in
  match existingItem with
  | Some _ =>
      Some {| productSearchTerm := "";
              productResults := [];
              cartItems :=
                mutateFound (inCart target)
                  (fun item =>
                     withQuantity item (numAdd (quantity item) (Some 1)))
                  (cartItems s) |}
  | None =>
      match product with
      | Some p =>
          Some {| productSearchTerm := "";
                  productResults := [];
                  cartItems :=
                    cartItems s
                    ++ [ {| productId := prodId p;
                            productName := prodName p;
                            productCode := prodCode p;
                            quantity := Some 1;
                            unitPrice := prodUnitPrice p;
                            totalPrice := Some (prodUnitPrice p) |} ] |}
      | None => None
      end
  end.

Definition removeFromCart (target : string) (s : State) : State :=
  {| productSearchTerm := productSearchTerm s;
     productResults := productResults s;
     cartItems :=
       filter (fun item => negb (String.eqb (productId item) target))
         (cartItems s) |}.

(** [newQuantity] is the result of [parseInt(event.target.value, 10)]. *)
Definition updateQuantity (target : string) (newQuantity : num) (s : State)
  : State :=
  if numLe0 newQuantity then removeFromCart target s
  else
    match find (inCart target) (cartItems s) with
    | Some _ =>
        {| productSearchTerm := productSearchTerm s;
           productResults := productResults s;
           cartItems :=
             mutateFound (inCart target)
               (fun item => withQuantity item newQuantity) (cartItems s) |}
    | None => s
    end.

(** [confirmed] is the answer to the [confirm] dialog. *)
Definition clearCart (confirmed : bool) (s : State) : State :=
  if confirmed then
    {| productSearchTerm := productSearchTerm s;
       productResults := productResults s;
       cartItems := [] |}
  else s.

Inductive Event : Type :=
| SearchResolved (results : list Product)
| AddToCart (target : string)
| UpdateQuantity (target : string) (newQuantity : num)
| RemoveFromCart (target : string)
| ClearCart (confirmed : bool).

(** One event; a handler that throws leaves the state as it was. *)
Definition step (e : Event) (s : State) : State :=
  match e with
  | SearchResolved results => searchResolved results s
  | AddToCart target =>
      match addToCart target s with
      | Some s' => s'
      | None => s
      end
  | UpdateQuantity target newQuantity => updateQuantity target newQuantity s
  | RemoveFromCart target => removeFromCart target s
  | ClearCart confirmed => clearCart confirmed s
  end.

Definition run (es : list Event) (s : State) : State :=
  fold_left (fun s e => step e s) es s.




(** The sum of [quantity * unitPrice] over the lines. *)
Definition lineSum (items : list CartItem) : num :=
  fold_right
    (fun item acc =>
       numAdd (numMul (quantity item) (Some (unitPrice item))) acc)
    (Some 0) items.


(** [detectCardType]; [None] as argument is [null] or [undefined], [None]
    as result is [null]. *)
Definition detectCardType (cardNumber : option jsString) : option string :=
  match cardNumber with
  | None => None
  | Some [] => None
  | Some cardNumber =>
      let num := RegExp.removeAll RegExp.isWhiteSpace cardNumber in
      if RegExp.test (RegExp.Chr (code "4")) num then Some "Visa"%string
      else if RegExp.test
                (RegExp.Cat (RegExp.Chr (code "5"))
                   (RegExp.Range (code "1") (code "5"))) num
      then Some "Mastercard"%string
      else if RegExp.test
                (RegExp.Cat (RegExp.Chr (code "3"))
                   (RegExp.Alt (RegExp.Chr (code "4"))
                      (RegExp.Chr (code "7")))) num
      then Some "Amex"%string
      else if RegExp.test
                (RegExp.Cat (RegExp.Chr (code "6"))
                   (RegExp.Alt
                      (RegExp.Cat (RegExp.Chr (code "0"))
                         (RegExp.Cat (RegExp.Chr (code "1"))
                            (RegExp.Chr (code "1"))))
                      (RegExp.Chr (code "5")))) num
      then Some "Discover"%string
      else Some "Unknown"%string
  end.

End CallCenterPayment.

(** ** PaymentForm: the card brand *)

Module PaymentForm.

(** A literal sequence of two characters. *)
Definition two (a b : Ascii.ascii) : RegExp.t :=
  RegExp.Cat (RegExp.Chr (code a)) (RegExp.Chr (code b)).

Arguments two (a b)%_char.

(** Two literal characters and a range. *)
Definition twoRange (a b lo hi : Ascii.ascii) : RegExp.t :=
  RegExp.Cat (RegExp.Chr (code a))
    (RegExp.Cat (RegExp.Chr (code b)) (RegExp.Range (code lo) (code hi))).

Arguments twoRange (a b lo hi)%_char.

(** The [patterns] of [detectCardType], in the order of the object. *)
Definition patterns : list (string * RegExp.t) :=
  [ ("Visa"%string, RegExp.Chr (code "4"));
    ("Mastercard"%string,
     RegExp.Alt
       (RegExp.Cat (RegExp.Chr (code "5"))
          (RegExp.Range (code "1") (code "5")))
       (RegExp.Cat (RegExp.Chr (code "2"))
          (RegExp.Range (code "2") (code "7"))));
    ("American Express"%string,
     RegExp.Cat (RegExp.Chr (code "3"))
       (RegExp.Alt (RegExp.Chr (code "4")) (RegExp.Chr (code "7"))));
    ("Discover"%string,
     RegExp.Alt
       (RegExp.Cat (two "6" "0") (two "1" "1"))
       (RegExp.Alt (two "6" "5") (twoRange "6" "4" "4" "9")));
    ("Diners Club"%string,
     RegExp.Alt (two "3" "6")
       (RegExp.Alt (two "3" "8") (twoRange "3" "0" "0" "5")));
    ("JCB"%string, two "3" "5");
    ("UnionPay"%string, two "6" "2") ].

(** The loop over [Object.entries(patterns)]: the first brand whose
    pattern matches, or the empty string. *)
Definition detectCardType (number : jsString) : string :=
  match find (fun entry => RegExp.test (snd entry) number) patterns with
  | Some (brand, _) => brand
  | None => ""
  end.

(** The two fields that [handleCardNumberInput] assigns. *)
Record CardInput : Type := mkCardInput {
  cardNumber : jsString;
  detectedCardType : string
}.

Definition handleCardNumberInput (value : jsString) : CardInput :=
  let value := RegExp.removeAll RegExp.isWhiteSpace value in
  {| cardNumber := value; detectedCardType := detectCardType value |}.

End PaymentForm.

(** ** AchPaymentEntry *)

Module AchPaymentEntry.

Record State : Type := mkState {
  showAmount : bool;
  accountType : string;
  nameOnAccount : jsString;
  bankName : jsString;
  routingNumber : jsString;
  accountNumber : jsString;
  confirmAccountNumber : jsString;
  amount : Z;
  savePaymentMethod : bool;
  authorized : bool;
  error : option string;
  isProcessing : bool
}.

(** The component as constructed, with its [showAmount] property. *)
Definition initial (showAmount : bool) : State :=
  {| showAmount := showAmount; accountType := "checking";
     nameOnAccount := []; bankName := []; routingNumber := [];
     accountNumber := []; confirmAccountNumber := []; amount := 0;
     savePaymentMethod := false; authorized := false; error := None;
     isProcessing := false |}.

(** A string in a condition: the empty string is false. *)
Definition truthy (s : jsString) : bool :=
  match s with
  | [] => false
  | _ :: _ => true
  end.

Definition jsString_eqb (a b : jsString) : bool :=
  if list_eq_dec N.eq_dec a b then true else false.

Definition accountNumberMismatch (s : State) : bool :=
  truthy (accountNumber s) && truthy (confirmAccountNumber s)
  && negb (jsString_eqb (accountNumber s) (confirmAccountNumber s)).

Definition isSubmitDisabled (s : State) : bool :=
  isProcessing s
  || negb (authorized s)
  || negb (truthy (nameOnAccount s))
  || negb (truthy (routingNumber s))
  || negb (truthy (accountNumber s))
  || negb (truthy (confirmAccountNumber s))
  || accountNumberMismatch s
  || negb (List.length (routingNumber s) =? 9)%nat
  || (List.length (accountNumber s) <? 4)%nat
  || (showAmount s && ((amount s =? 0) || (amount s <=? 0))).

(** [value.replace(/\D/g, '')] *)
Definition digitsOnly (value : jsString) : jsString :=
  RegExp.removeAll (fun c => negb (RegExp.isDigit c)) value.

Definition withText (s : State)
  (name bank routing account confirm : jsString) : State :=
  {| showAmount := showAmount s; accountType := accountType s;
     nameOnAccount := name; bankName := bank; routingNumber := routing;
     accountNumber := account; confirmAccountNumber := confirm;
     amount := amount s; savePaymentMethod := savePaymentMethod s;
     authorized := authorized s; error := error s;
     isProcessing := isProcessing s |}.

Definition withFlags (s : State) (accountType : string) (amount : Z)
  (save authorized : bool) (error : option string) (isProcessing : bool)
  : State :=
  {| showAmount := showAmount s; accountType := accountType;
     nameOnAccount := nameOnAccount s; bankName := bankName s;
     routingNumber := routingNumber s; accountNumber := accountNumber s;
     confirmAccountNumber := confirmAccountNumber s;
     amount := amount; savePaymentMethod := save;
     authorized := authorized; error := error;
     isProcessing := isProcessing |}.

Definition handleAccountTypeChange (value : string) (s : State) : State :=
  withFlags s value (amount s) (savePaymentMethod s) (authorized s)
    (error s) (isProcessing s).

Definition handleNameChange (value : jsString) (s : State) : State :=
  withText s value (bankName s) (routingNumber s) (accountNumber s)
    (confirmAccountNumber s).

Definition handleBankNameChange (value : jsString) (s : State) : State :=
  withText s (nameOnAccount s) value (routingNumber s) (accountNumber s)
    (confirmAccountNumber s).

Definition handleRoutingChange (value : jsString) (s : State) : State :=
  withText s (nameOnAccount s) (bankName s) (digitsOnly value)
    (accountNumber s) (confirmAccountNumber s).

Definition handleAccountNumberChange (value : jsString) (s : State)
  : State :=
  withText s (nameOnAccount s) (bankName s) (routingNumber s)
    (digitsOnly value) (confirmAccountNumber s).

Definition handleConfirmAccountChange (value : jsString) (s : State)
  : State :=
  withText s (nameOnAccount s) (bankName s) (routingNumber s)
    (accountNumber s) (digitsOnly value).

(** [value] is the result of [parseFloat(event.target.value)]. *)
Definition handleAmountChange (value : option Z) (s : State) : State :=
  withFlags s (accountType s) (orZero value) (savePaymentMethod s)
    (authorized s) (error s) (isProcessing s).

Definition handleSaveMethodChange (checked : bool) (s : State) : State :=
  withFlags s (accountType s) (amount s) checked (authorized s)
    (error s) (isProcessing s).

Definition handleAuthorizationChange (checked : bool) (s : State) : State :=
  withFlags s (accountType s) (amount s) (savePaymentMethod s) checked
    (error s) (isProcessing s).

Definition echeckType (s : State) : string :=
  if String.eqb (accountType s) "businessChecking" then "CCD" else "WEB".

(** The object of [getAchDetails]. *)
Record AchAccount : Type := mkAchAccount {
  acctAccountType : string;
  acctNameOnAccount : jsString;
  acctBankName : jsString;
  acctRoutingNumber : jsString;
  acctAccountNumber : jsString;
  acctEcheckType : string
}.

(** The [detail] of the [submit] event: the same fields and two more. *)
Record AchDetails : Type := mkAchDetails {
  achAccount : AchAccount;
  achSavePaymentMethod : bool;
  achAmount : Z
}.

Definition getAchDetails (s : State) : AchAccount :=
  {| acctAccountType := accountType s;
     acctNameOnAccount := nameOnAccount s;
     acctBankName := bankName s;
     acctRoutingNumber := routingNumber s;
     acctAccountNumber := accountNumber s;
     acctEcheckType := echeckType s |}.

(** [handleSubmit]; [allValid] is what the inputs of the template answer
    to [checkValidity].  The second component is the event dispatched. *)
Definition handleSubmit (allValid : bool) (s : State)
  : State * option AchDetails :=
  if negb allValid then (s, None)
  else if accountNumberMismatch s then
    (withFlags s (accountType s) (amount s) (savePaymentMethod s)
       (authorized s) (Some "Account numbers do not match"%string)
       (isProcessing s), None)
  else if negb (authorized s) then
    (withFlags s (accountType s) (amount s) (savePaymentMethod s)
       (authorized s) (Some "Please authorize the ACH debit"%string)
       (isProcessing s), None)
  else
    (withFlags s (accountType s) (amount s) (savePaymentMethod s)
       (authorized s) None true,
     Some {| achAccount :=
               {| acctAccountType := accountType s;
                  acctNameOnAccount := nameOnAccount s;
                  acctBankName := bankName s;
                  acctRoutingNumber := routingNumber s;
                  acctAccountNumber := accountNumber s;
                  acctEcheckType := echeckType s |};
             achSavePaymentMethod := savePaymentMethod s;
             achAmount := amount s |}).

Definition validate (allValid : bool) (s : State) : bool :=
  allValid && negb (accountNumberMismatch s) && authorized s.

Definition setProcessing (isProcessing : bool) (s : State) : State :=
  withFlags s (accountType s) (amount s) (savePaymentMethod s)
    (authorized s) (error s) isProcessing.

Definition setError (errorMessage : option string) (s : State) : State :=
  withFlags s (accountType s) (amount s) (savePaymentMethod s)
    (authorized s) errorMessage false.

Definition reset (s : State) : State := initial (showAmount s).

Inductive Event : Type :=
| AccountTypeChange (value : string)
| NameChange (value : jsString)
| BankNameChange (value : jsString)
| RoutingChange (value : jsString)
| AccountNumberChange (value : jsString)
| ConfirmAccountChange (value : jsString)
| AmountChange (value : option Z)
| SaveMethodChange (checked : bool)
| AuthorizationChange (checked : bool)
| Submit (allValid : bool)
| SetProcessing (isProcessing : bool)
| SetError (errorMessage : option string)
| Reset.

Definition step (e : Event) (s : State) : State :=
  match e with
  | AccountTypeChange value => handleAccountTypeChange value s
  | NameChange value => handleNameChange value s
  | BankNameChange value => handleBankNameChange value s
  | RoutingChange value => handleRoutingChange value s
  | AccountNumberChange value => handleAccountNumberChange value s
  | ConfirmAccountChange value => handleConfirmAccountChange value s
  | AmountChange value => handleAmountChange value s
  | SaveMethodChange checked => handleSaveMethodChange checked s
  | AuthorizationChange checked => handleAuthorizationChange checked s
  | Submit allValid => fst (handleSubmit allValid s)
  | SetProcessing isProcessing => setProcessing isProcessing s
  | SetError errorMessage => setError errorMessage s
  | Reset => reset s
  end.

Definition run (es : list Event) (s : State) : State :=
  fold_left (fun s e => step e s) es s.

(** The three number fields hold decimal digits only. *)
Definition DigitsOnly (s : State) : Prop :=
  Forall (fun c => RegExp.isDigit c = true) (routingNumber s)
  /\ Forall (fun c => RegExp.isDigit c = true) (accountNumber s)
  /\ Forall (fun c => RegExp.isDigit c = true) (confirmAccountNumber s).

End AchPaymentEntry.

(** ** Vocabulary of the design document *)

(** The sum of the amounts of a sequence of allocations. *)
Fixpoint sumAmounts (l : list Allocation) : Z :=
  match l with
  | [] => 0
  | a :: l' => amount a + sumAmounts l'
  end.


(** The clamp of the design document: [min(max(0, requested), balanceDue)]. *)
Definition clampAmount (requested balanceDue : Z) : Z :=
  Z.min (Z.max 0 requested) balanceDue.


(** [Survives input output]: [output] lists, in the order of [input], some
    of its allocations, each with its [invoiceId] and [isFullPayment]. *)
Inductive Survives : list Allocation -> list Allocation -> Prop :=
| surv_nil : Survives [] []
| surv_drop : forall a l out, Survives l out -> Survives (a :: l) out
| surv_keep : forall a b l out,
    invoiceId b = invoiceId a ->
    isFullPayment b = isFullPayment a ->
    amount b <= amount a ->
    Survives l out -> Survives (a :: l) (b :: out).

(** ** Invariants of the selector *)

(** The ids of the rows with their balances due. *)
Definition idBalances (rows : list InvoiceSelector.Invoice)
  : list (string * Z) :=
  map (fun inv => (InvoiceSelector.id inv, InvoiceSelector.balanceDue inv))
      rows.

(** A row whose partial amount lies within its balance due. *)
Definition rowInRange (inv : InvoiceSelector.Invoice) : Prop :=
  0 <= InvoiceSelector.paymentAmount inv <= InvoiceSelector.balanceDue inv.

(** An entry of the selection map that is filed under its own invoice id
    and whose amount lies within the balance due of a row with that id. *)
Definition entryInRange (balances : list (string * Z))
  (entry : string * Allocation) : Prop :=
  invoiceId (snd entry) = fst entry
  /\ exists b, In (fst entry, b) balances /\ 0 <= amount (snd entry) <= b.

Definition AmountsInRange (s : InvoiceSelector.State) : Prop :=
  Forall rowInRange (InvoiceSelector.invoices s)
  /\ Forall (entryInRange (idBalances (InvoiceSelector.invoices s)))
       (InvoiceSelector.selectedInvoices s).

(** A row callback seen from outside: the rows with the target id are
    changed by [g], the others are kept. *)
Definition updRow (target : string)
  (g : InvoiceSelector.Invoice -> InvoiceSelector.Invoice)
  (inv : InvoiceSelector.Invoice) : InvoiceSelector.Invoice :=
  if String.eqb (InvoiceSelector.id inv) target then g inv else inv.

(** The checkbox of every row agrees with the selection map. *)
Definition InSync (s : InvoiceSelector.State) : Prop :=
  JSMap.wf (InvoiceSelector.selectedInvoices s)
  /\ Forall (fun entry => invoiceId (snd entry) = fst entry)
       (InvoiceSelector.selectedInvoices s)
  /\ Forall (fun inv =>
               InvoiceSelector.selected inv
               = JSMap.has (InvoiceSelector.id inv)
                   (InvoiceSelector.selectedInvoices s))
       (InvoiceSelector.invoices s).

(** * Properties *)

(** ** Sums *)

Lemma fold_left_amounts (l : list Allocation) (acc : Z) :
  fold_left (fun sum a => sum + amount a) l acc = acc + sumAmounts l.
Proof.
  revert acc; induction l as [|a l IH]; intros acc; simpl.
  - lia.
  - rewrite IH. lia.
Qed.

Lemma reduceAmounts_sum (l : list Allocation) :
  reduceAmounts l = sumAmounts l.
Proof. unfold reduceAmounts. rewrite fold_left_amounts. lia. Qed.

Lemma sumAmounts_app (l1 l2 : list Allocation) :
  sumAmounts (l1 ++ l2) = sumAmounts l1 + sumAmounts l2.
Proof. induction l1 as [|a l1 IH]; simpl; lia. Qed.

Lemma sumAmounts_nonneg (l : list Allocation) :
  Forall (fun a => 0 <= amount a) l -> 0 <= sumAmounts l.
Proof. induction 1; simpl; lia. Qed.


(** ** The credit walk *)

Import AccountPayment.

Lemma distributeCredit_nil (r : Z) : distributeCredit r [] = [].
Proof. reflexivity. Qed.

Lemma distributeCredit_cons (r : Z) (a : Allocation) (l : list Allocation) :
  distributeCredit r (a :: l) =
  withAmount a (amount a - Z.min r (amount a))
    :: distributeCredit (r - Z.min r (amount a)) l.
Proof.
  unfold distributeCredit; simpl.
  unfold St.bind, creditRow, St.bind, St.get, St.put, St.ret, Math_min; simpl.
  destruct (St.mapM _ l _) as [ys r']; reflexivity.
Qed.

Lemma distributeCredit_length (l : list Allocation) (r : Z) :
  List.length (distributeCredit r l) = List.length l.
Proof.
  revert r; induction l as [|a l IH]; intros r.
  - reflexivity.
  - rewrite distributeCredit_cons; simpl. now rewrite IH.
Qed.









Lemma filter_positive_Forall (l : list Allocation) :
  Forall (fun a => 0 < amount a) (filter (fun alloc => 0 <? amount alloc) l).
Proof.
  apply Forall_forall. intros a Ha.
  apply filter_In in Ha. destruct Ha as [_ Ha]. now apply Z.ltb_lt.
Qed.

(** What survives the filter keeps its id and flag, in order, with an
    amount no larger than before. *)
Lemma distributeCredit_survives (l : list Allocation) (r : Z) :
  0 <= r ->
  Survives l (filter (fun alloc => 0 <? amount alloc) (distributeCredit r l)).
Proof.
  revert r; induction l as [|a l IH]; intros r Hr.
  - constructor.
  - rewrite distributeCredit_cons. simpl.
    destruct (0 <? _) eqn:E.
    + apply Z.ltb_lt in E. apply surv_keep; simpl; try reflexivity; try lia.
      apply IH. lia.
    + apply surv_drop, IH. lia.
Qed.

Lemma Survives_refl (l : list Allocation) : Survives l l.
Proof. induction l; [constructor | apply surv_keep; auto; lia]. Qed.

Lemma Survives_In (l out : list Allocation) (b : Allocation) :
  Survives l out -> In b out ->
  exists a, In a l /\ invoiceId b = invoiceId a
            /\ isFullPayment b = isFullPayment a /\ amount b <= amount a.
Proof.
  induction 1 as [|a l out _ IH|a b' l out Hi Hf Ha _ IH]; intros Hin.
  - destruct Hin.
  - destruct (IH Hin) as [x [Hx Hr]]. exists x. split; [now right|exact Hr].
  - destruct Hin as [->|Hin].
    + exists a. split; [now left|auto].
    + destruct (IH Hin) as [x [Hx Hr]]. exists x. split; [now right|exact Hr].
Qed.

Lemma Survives_length (l out : list Allocation) :
  Survives l out -> (List.length out <= List.length l)%nat.
Proof. induction 1; simpl; lia. Qed.


Lemma allocationsForPayment_credit (s : State) :
  applyCredits s = true ->
  0 < creditAmountToApply s ->
  allocationsForPayment s =
  filter (fun alloc => 0 <? amount alloc)
    (distributeCredit (creditAmountToApply s) (invoiceAllocations s)).
Proof.
  intros Ha Hc. unfold allocationsForPayment. rewrite Ha.
  destruct (creditAmountToApply s <=? 0) eqn:E; [|reflexivity].
  apply Z.leb_le in E. lia.
Qed.

Lemma allocationsForPayment_no_credit (s : State) :
  applyCredits s = false \/ creditAmountToApply s <= 0 ->
  allocationsForPayment s = invoiceAllocations s.
Proof.
  intros H. unfold allocationsForPayment.
  destruct H as [-> | H]; [reflexivity|].
  apply Z.leb_le in H. rewrite H. now rewrite orb_true_r.
Qed.

(** ** Claims on [allocationsForPayment] *)

(** C1 (as amended).  With credits enabled, credit 120 applied to the
    allocations [(inv1, 100); (inv2, 50)] gives exactly [(inv2, 30)]: the
    first invoice absorbs 100 and is dropped, the second absorbs the 20
    that remain and keeps 30, whatever the ids, the payment-mode flags and
    the other fields of the component. *)
Theorem allocationsForPayment_order_sensitivity
  (credits : list Credit) (total : Z) (count : nat)
  (inv1 inv2 : string) (full1 full2 : bool) :
  allocationsForPayment
    {| accountCredits := credits; applyCredits := true;
       creditAmountToApply := 120;
       invoiceAllocations :=
         [ {| invoiceId := inv1; amount := 100; isFullPayment := full1 |};
           {| invoiceId := inv2; amount := 50; isFullPayment := full2 |} ];
       totalAmount := total; invoiceCount := count |}
  = [ {| invoiceId := inv2; amount := 30; isFullPayment := full2 |} ].
Proof. reflexivity. Qed.

(** C1 as stated fails: the amount left on the second invoice is 30, not
    20 (20 is the credit that reaches it). *)
Lemma order_sensitivity_leaves_30_not_20 :
  allocationsForPayment
    {| accountCredits := [ {| remainingBalance := 120 |} ];
       applyCredits := true; creditAmountToApply := 120;
       invoiceAllocations :=
         [ {| invoiceId := "inv1"; amount := 100; isFullPayment := true |};
           {| invoiceId := "inv2"; amount := 50; isFullPayment := true |} ];
       totalAmount := 150; invoiceCount := 2 |}
  <> [ {| invoiceId := "inv2"; amount := 20; isFullPayment := true |} ].
Proof. discriminate. Qed.

(** C3 (as amended).  When credit is applied ([applyCredits] set and
    [creditAmountToApply > 0]) every allocation returned by
    [allocationsForPayment] has a positive amount; otherwise the getter
    returns the selector's allocations as they are, without a filter. *)
Theorem allocationsForPayment_positive_after_credit (s : State) :
  (applyCredits s = true -> 0 < creditAmountToApply s ->
   Forall (fun a => 0 < amount a) (allocationsForPayment s))
  /\ (applyCredits s = false \/ creditAmountToApply s <= 0 ->
      allocationsForPayment s = invoiceAllocations s).
Proof.
  split.
  - intros Ha Hc. rewrite allocationsForPayment_credit by assumption.
    apply filter_positive_Forall.
  - apply allocationsForPayment_no_credit.
Qed.


(** Two equal invoices and credit for one of them: the first is paid off
    whole and the second is untouched (a proportional split would halve
    both). *)
Example credit_not_proportional :
  allocationsForPayment
    {| accountCredits := [ {| remainingBalance := 100 |} ];
       applyCredits := true; creditAmountToApply := 100;
       invoiceAllocations :=
         [ {| invoiceId := "a"; amount := 100; isFullPayment := true |};
           {| invoiceId := "b"; amount := 100; isFullPayment := true |} ];
       totalAmount := 200; invoiceCount := 2 |}
  = [ {| invoiceId := "b"; amount := 100; isFullPayment := true |} ].
Proof. reflexivity. Qed.


(** C8.  The result lists, in input order, allocations of the input with
    their [invoiceId] and [isFullPayment] as they were and an amount no
    larger than before; so every allocation of the result has an input
    allocation with the same id and the same flag. *)
Theorem surviving_allocations_keep_flag (s : State) :
  Survives (invoiceAllocations s) (allocationsForPayment s)
  /\ forall b, In b (allocationsForPayment s) ->
       exists a, In a (invoiceAllocations s)
                 /\ invoiceId b = invoiceId a
                 /\ isFullPayment b = isFullPayment a
                 /\ amount b <= amount a.
Proof.
  assert (H : Survives (invoiceAllocations s) (allocationsForPayment s)).
  { unfold allocationsForPayment.
    destruct (negb (applyCredits s) || (creditAmountToApply s <=? 0)) eqn:E.
    - apply Survives_refl.
    - apply orb_false_elim in E. destruct E as [_ E].
      apply Z.leb_gt in E. apply distributeCredit_survives. lia. }
  split; [exact H|].
  intros b Hb. exact (Survives_In _ _ b H Hb).
Qed.


(** *** Concrete instances *)

(** C3 as stated fails without credit.  An invoice is selected and its
    partial amount set to 0 in the selector; the event reaches the account
    component, credits stay off, and the allocation of amount 0 is in the
    sequence for submission. *)
Lemma zero_amount_reaches_submission :
  let rows :=
    [ {| InvoiceSelector.id := "inv1"; InvoiceSelector.totalAmount := 100;
         InvoiceSelector.amountPaid := 0; InvoiceSelector.balanceDue := 100;
         InvoiceSelector.selected := false;
         InvoiceSelector.paymentType := "full";
         InvoiceSelector.paymentAmount := 100 |} ] in
  exists sel1 d1 sel2 d2,
    InvoiceSelector.handleInvoiceSelect "inv1" true
      (InvoiceSelector.initial rows) = Some (sel1, d1)
    /\ InvoiceSelector.handlePartialAmountChange "inv1" (Some 0) sel1
       = (sel2, d2)
    /\ let s := handleInvoiceSelectionChange d2 (initial []) in
       allocationsForPayment s
       = [ {| invoiceId := "inv1"; amount := 0; isFullPayment := false |} ]
       /\ ~ Forall (fun a => 0 < amount a) (allocationsForPayment s).
Proof.
  cbv zeta. do 4 eexists. split; [reflexivity|]. split; [reflexivity|].
  split; [reflexivity|].
  intros H. vm_compute in H. inversion H as [|a l Ha _]. discriminate Ha.
Defined.

Lemma allocationsForPayment_positive_after_credit_witness :
  let s :=
    {| accountCredits := [ {| remainingBalance := 80 |} ];
       applyCredits := true; creditAmountToApply := 80;
       invoiceAllocations :=
         [ {| invoiceId := "inv1"; amount := 80; isFullPayment := true |};
           {| invoiceId := "inv2"; amount := 40; isFullPayment := false |} ];
       totalAmount := 120; invoiceCount := 2 |} in
  Forall (fun a => 0 < amount a) (allocationsForPayment s)
  /\ allocationsForPayment (handleApplyCreditsChange false s)
     = invoiceAllocations s.
Proof.
  intros s. split.
  - apply (proj1 (allocationsForPayment_positive_after_credit s)).
    + reflexivity.
    + simpl. lia.
  - apply (proj2 (allocationsForPayment_positive_after_credit
                    (handleApplyCreditsChange false s))).
    left. reflexivity.
Defined.




Lemma surviving_allocations_keep_flag_witness :
  let s :=
    {| accountCredits := [ {| remainingBalance := 120 |} ];
       applyCredits := true; creditAmountToApply := 120;
       invoiceAllocations :=
         [ {| invoiceId := "inv1"; amount := 100; isFullPayment := true |};
           {| invoiceId := "inv2"; amount := 50; isFullPayment := true |} ];
       totalAmount := 150; invoiceCount := 2 |} in
  exists a, In a (invoiceAllocations s)
            /\ "inv2"%string = invoiceId a /\ true = isFullPayment a
            /\ 30 <= amount a.
Proof.
  intros s.
  apply (proj2 (surviving_allocations_keep_flag s)
           {| invoiceId := "inv2"; amount := 30; isFullPayment := true |}).
  left. reflexivity.
Defined.


(** ** The credit handlers *)


(** Both handlers keep the credit under the available credit and under the
    total of the allocations. *)
Lemma handleCreditAmountChange_upper (value : option Z) (s : State) :
  creditAmountToApply (handleCreditAmountChange value s)
  <= Z.min (totalAvailableCredit s) (totalAmount s).
Proof. simpl. unfold Math_min3. lia. Qed.


(** The lower bound of the typed credit is the lower bound of the input. *)
Lemma handleCreditAmountChange_lower (value : option Z) (s : State) :
  0 <= totalAvailableCredit s ->
  0 <= totalAmount s ->
  (0 <= creditAmountToApply (handleCreditAmountChange value s)
   <-> 0 <= orZero value).
Proof. intros Ha Ht. simpl. unfold Math_min3. lia. Qed.

(** C6 at a failing input.  Credit 200 is available, one invoice of 100 is
    selected and credits are switched on; typing [-50] in the credit field
    stores [-50]: the credit to apply is negative, the amount to charge
    becomes 150, and the allocations still sum to 100. *)
Theorem handleCreditAmountChange_negative_credit :
  let detail :=
    {| allocations :=
         [ {| invoiceId := "inv1"; amount := 100; isFullPayment := true |} ];
       detailTotalAmount := 100; detailInvoiceCount := 1 |} in
  let s :=
    handleApplyCreditsChange true
      (handleInvoiceSelectionChange detail
         (initial [ {| remainingBalance := 200 |} ])) in
  let s' := handleCreditAmountChange (Some (-50)) s in
  creditAmountToApply s = 100
  /\ creditAmountToApply s' = -50
  /\ ~ (0 <= creditAmountToApply s'
        <= Z.min (totalAvailableCredit s') (totalAmount s'))
  /\ paymentAmount s' = 150
  /\ sumAmounts (allocationsForPayment s') = 100.
Proof.
  cbv zeta. repeat split; try reflexivity.
  vm_compute. intros [H _]. apply H. reflexivity.
Qed.

(** ** The partial-amount clamp *)

Lemma clampAmount_range (requested balanceDue : Z) :
  0 <= balanceDue ->
  0 <= clampAmount requested balanceDue <= balanceDue.
Proof. unfold clampAmount. lia. Qed.

Lemma validAmount_clampAmount (requested balanceDue : Z) :
  InvoiceSelector.validAmount requested balanceDue
  = clampAmount requested balanceDue.
Proof. reflexivity. Qed.

(** The single-invoice handler bounds the amount from above only; it
    agrees with the clamp exactly when the request is not negative. *)
Lemma InvoicePayment_partial_upper (value : option Z)
  (s : InvoicePayment.State) :
  InvoicePayment.partialAmount
    (InvoicePayment.handlePartialAmountChange value s)
  <= InvoicePayment.balanceDue s.
Proof. simpl. unfold Math_min. lia. Qed.

Lemma InvoicePayment_partial_clamp (value : option Z)
  (s : InvoicePayment.State) :
  0 <= orZero value ->
  InvoicePayment.partialAmount
    (InvoicePayment.handlePartialAmountChange value s)
  = clampAmount (orZero value) (InvoicePayment.balanceDue s).
Proof. intros H. simpl. unfold Math_min, clampAmount. lia. Qed.

(** C2 at a failing input.  In the single-invoice flow, with balance due
    100 and partial payment chosen, typing [-5] stores [-5], where the
    clamp gives 0; the multi-invoice row callback clamps the same request
    to 0. *)
Theorem InvoicePayment_partial_amount_negative :
  let s :=
    InvoicePayment.handlePaymentTypeChange "partial"
      {| InvoicePayment.recordId := "inv1";
         InvoicePayment.invoiceBalance := Some 100;
         InvoicePayment.paymentType := "full";
         InvoicePayment.partialAmount := 0 |} in
  let s' := InvoicePayment.handlePartialAmountChange (Some (-5)) s in
  InvoicePayment.balanceDue s' = 100
  /\ InvoicePayment.partialAmount s' = -5
  /\ clampAmount (-5) (InvoicePayment.balanceDue s') = 0
  /\ ~ (0 <= InvoicePayment.partialAmount s' <= InvoicePayment.balanceDue s')
  /\ InvoicePayment.invoiceAllocations s'
     = [ {| invoiceId := "inv1"; amount := -5; isFullPayment := false |} ]
  /\ InvoiceSelector.validAmount (orZero (Some (-5))) 100 = 0.
Proof.
  cbv zeta. repeat split; try reflexivity.
  vm_compute. intros [H _]. apply H. reflexivity.
Qed.

(** ** The selection map *)

Section JSMapFacts.

Context {V : Type}.
Implicit Types (m : JSMap.t V) (k : string) (v : V).


Lemma JSMap_delete_absent k m :
  JSMap.has k m = false -> JSMap.delete k m = m.
Proof.
  induction m as [|[k' v'] m IH]; simpl; intros H.
  - reflexivity.
  - destruct (String.eqb k' k); [discriminate|]. now rewrite IH.
Qed.

Lemma JSMap_has_set k v m : JSMap.has k (JSMap.set k v m) = true.
Proof.
  induction m as [|[k' v'] m IH]; simpl.
  - now rewrite String.eqb_refl.
  - destruct (String.eqb k' k) eqn:E; simpl; now rewrite E.
Qed.

Lemma JSMap_get_set k v m : JSMap.get k (JSMap.set k v m) = Some v.
Proof.
  induction m as [|[k' v'] m IH]; simpl.
  - now rewrite String.eqb_refl.
  - destruct (String.eqb k' k) eqn:E; simpl; now rewrite E.
Qed.

Lemma JSMap_set_set k v1 v2 m :
  JSMap.set k v2 (JSMap.set k v1 m) = JSMap.set k v2 m.
Proof.
  induction m as [|[k' v'] m IH]; simpl.
  - now rewrite String.eqb_refl.
  - destruct (String.eqb k' k) eqn:E; simpl; rewrite E.
    + reflexivity.
    + now rewrite IH.
Qed.


Lemma JSMap_has_keys k m : JSMap.has k m = true <-> In k (JSMap.keys m).
Proof.
  induction m as [|[k' v'] m IH]; simpl.
  - split; [discriminate|tauto].
  - destruct (String.eqb k' k) eqn:E.
    + apply String.eqb_eq in E. tauto.
    + apply String.eqb_neq in E. rewrite IH. tauto.
Qed.

Lemma JSMap_keys_delete k k0 m :
  In k0 (JSMap.keys (JSMap.delete k m)) -> In k0 (JSMap.keys m).
Proof.
  induction m as [|[k' v'] m IH]; simpl.
  - tauto.
  - destruct (String.eqb k' k); simpl; tauto.
Qed.

(** Uniqueness of the keys is kept by [set] and [delete], and a deleted
    key is gone. *)
Lemma JSMap_wf_delete k m : JSMap.wf m -> JSMap.wf (JSMap.delete k m).
Proof.
  unfold JSMap.wf. induction m as [|[k' v'] m IH]; simpl; intros H.
  - constructor.
  - inversion H as [|? ? Hn Hm]; subst.
    destruct (String.eqb k' k); [exact Hm|]. simpl. constructor.
    + intros Hin. apply Hn. eapply JSMap_keys_delete; eauto.
    + now apply IH.
Qed.

Lemma JSMap_keys_set k v k0 m :
  In k0 (JSMap.keys (JSMap.set k v m)) -> k0 = k \/ In k0 (JSMap.keys m).
Proof.
  induction m as [|[k' v'] m IH]; simpl.
  - intros [<-|[]]. now left.
  - destruct (String.eqb k' k); simpl; tauto.
Qed.

Lemma JSMap_wf_set k v m : JSMap.wf m -> JSMap.wf (JSMap.set k v m).
Proof.
  unfold JSMap.wf. induction m as [|[k' v'] m IH]; simpl; intros H.
  - repeat constructor. tauto.
  - inversion H as [|? ? Hn Hm]; subst.
    destruct (String.eqb k' k) eqn:E; simpl.
    + now constructor.
    + constructor; [|now apply IH].
      intros Hin. apply JSMap_keys_set in Hin. destruct Hin as [->|Hin].
      * now rewrite String.eqb_refl in E.
      * now apply Hn.
Qed.

Lemma JSMap_has_delete k m :
  JSMap.wf m -> JSMap.has k (JSMap.delete k m) = false.
Proof.
  unfold JSMap.wf. induction m as [|[k' v'] m IH]; simpl; intros H.
  - reflexivity.
  - inversion H as [|? ? Hn Hm]; subst.
    destruct (String.eqb k' k) eqn:E; simpl.
    + apply String.eqb_eq in E; subst.
      destruct (JSMap.has k m) eqn:Hh; [|reflexivity].
      apply JSMap_has_keys in Hh. contradiction.
    + rewrite E. now apply IH.
Qed.

End JSMapFacts.


(** ** Claims on the selector *)


Lemma findInvoice_select (invoiceId : string) (checked : bool)
  (rows : list InvoiceSelector.Invoice) :
  InvoiceSelector.findInvoice invoiceId
    (map (fun inv =>
            if String.eqb (InvoiceSelector.id inv) invoiceId
            then InvoiceSelector.withSelected inv checked else inv) rows)
  = option_map (fun inv => InvoiceSelector.withSelected inv checked)
      (InvoiceSelector.findInvoice invoiceId rows).
Proof.
  unfold InvoiceSelector.findInvoice.
  induction rows as [|inv rows IH]; simpl.
  - reflexivity.
  - destruct (String.eqb (InvoiceSelector.id inv) invoiceId) eqn:E; simpl;
      rewrite E; [reflexivity|exact IH].
Qed.


(** Deselecting always succeeds and deletes the entry. *)
Lemma handleInvoiceSelect_unchecked (invoiceId : string)
  (s : InvoiceSelector.State) :
  exists s2,
    InvoiceSelector.handleInvoiceSelect invoiceId false s
    = Some (s2, InvoiceSelector.notifySelectionChange s2)
    /\ InvoiceSelector.selectedInvoices s2
       = JSMap.delete invoiceId (InvoiceSelector.selectedInvoices s).
Proof. eexists. split; reflexivity. Qed.





(** ** The multi-invoice partial amount *)

Lemma mapM_cons_state {S A B} (f : A -> St.t S B) (x : A) (xs : list A)
  (s : S) :
  snd (St.mapM f (x :: xs) s) = snd (St.mapM f xs (snd (f x s))).
Proof.
  simpl. unfold St.bind. destruct (f x s) as [y s1]. simpl.
  destruct (St.mapM f xs s1) as [ys s2]. reflexivity.
Qed.

(** What the rows' callback leaves in the selection map: either nothing
    changed, or the entry of the invoice holds the clamp of the request
    against the balance due of a loaded invoice with that id. *)
Lemma partialAmountRow_mapM (invoiceId : string) (amount0 : Z)
  (rows : list InvoiceSelector.Invoice) (sel : JSMap.t Allocation) :
  let sel' :=
    snd (St.mapM (InvoiceSelector.partialAmountRow invoiceId amount0)
           rows sel) in
  sel' = sel
  \/ exists inv,
       In inv rows /\ InvoiceSelector.id inv = invoiceId
       /\ sel' = JSMap.set invoiceId
                   {| invoiceId := invoiceId;
                      amount := clampAmount amount0
                                  (InvoiceSelector.balanceDue inv);
                      isFullPayment := false |} sel.
Proof.
  cbv zeta. revert sel. induction rows as [|inv rows IH]; intros sel.
  - left. reflexivity.
  - rewrite mapM_cons_state.
    destruct (InvoiceSelector.partialAmountRow invoiceId amount0 inv sel)
      as [inv' sel1] eqn:E1.
    cbn [snd].
    assert (H1 : sel1 = sel
                 \/ (InvoiceSelector.id inv = invoiceId
                     /\ sel1 = JSMap.set invoiceId
                                 {| invoiceId := invoiceId;
                                    amount := clampAmount amount0
                                      (InvoiceSelector.balanceDue inv);
                                    isFullPayment := false |} sel)).
    { unfold InvoiceSelector.partialAmountRow in E1.
      destruct (String.eqb (InvoiceSelector.id inv) invoiceId) eqn:Eid.
      - apply String.eqb_eq in Eid.
        unfold St.bind, St.get, St.put, St.ret in E1.
        destruct (JSMap.has invoiceId sel); injection E1 as _ <-; auto.
      - injection E1 as _ <-. now left. }
    destruct (IH sel1) as [->|[inv2 [Hin [Hid ->]]]].
    + destruct H1 as [->|[Hid ->]]; [now left|].
      right. exists inv. split; [now left|]. split; [exact Hid|reflexivity].
    + right. exists inv2. split; [now right|]. split; [exact Hid|].
      destruct H1 as [->|[_ ->]]; [reflexivity|apply JSMap_set_set].
Qed.

(** In the multi-invoice flow the amount stored for the invoice by a
    partial-amount change is the clamp of the request, hence within
    [0, balanceDue] when the balance due is not negative. *)
Lemma InvoiceSelector_partial_amount_in_range (invoiceId : string)
  (value : option Z) (s : InvoiceSelector.State) (a : Allocation) :
  Forall (fun inv => 0 <= InvoiceSelector.balanceDue inv)
    (InvoiceSelector.invoices s) ->
  let s' :=
    fst (InvoiceSelector.handlePartialAmountChange invoiceId value s) in
  JSMap.get invoiceId (InvoiceSelector.selectedInvoices s') = Some a ->
  InvoiceSelector.selectedInvoices s' = InvoiceSelector.selectedInvoices s
  \/ exists inv,
       In inv (InvoiceSelector.invoices s)
       /\ InvoiceSelector.id inv = invoiceId
       /\ amount a = clampAmount (orZero value)
                       (InvoiceSelector.balanceDue inv)
       /\ 0 <= amount a <= InvoiceSelector.balanceDue inv.
Proof.
  intros Hb. cbv zeta. unfold InvoiceSelector.handlePartialAmountChange.
  pose proof (partialAmountRow_mapM invoiceId (orZero value)
                (InvoiceSelector.invoices s)
                (InvoiceSelector.selectedInvoices s)) as H.
  cbv zeta in H.
  destruct (St.mapM _ _ _) as [rows' sel']. simpl in *.
  destruct H as [->|[inv [Hin [Hid ->]]]]; [now left|].
  rewrite JSMap_get_set. intros [= <-]. right. exists inv.
  repeat split; try assumption; simpl.
  - apply clampAmount_range.
    exact (proj1 (Forall_forall _ _) Hb inv Hin).
  - apply clampAmount_range.
    exact (proj1 (Forall_forall _ _) Hb inv Hin).
Qed.

(** * Further properties of the selector *)

Section JSMapMoreFacts.

Context {V : Type}.
Implicit Types (m : JSMap.t V) (k : string) (v : V).

Lemma JSMap_keys_set_present k v m :
  JSMap.has k m = true -> JSMap.keys (JSMap.set k v m) = JSMap.keys m.
Proof.
  induction m as [|[k' v'] m IH]; simpl; intros H.
  - discriminate.
  - destruct (String.eqb k' k) eqn:E; simpl; [reflexivity|].
    now rewrite IH.
Qed.


Lemma JSMap_has_ext k m (m' : JSMap.t V) :
  JSMap.keys m = JSMap.keys m' -> JSMap.has k m = JSMap.has k m'.
Proof.
  revert m'; induction m as [|[k1 v1] m IH]; intros [|[k2 v2] m'];
    simpl; intros H; try discriminate; [reflexivity|].
  injection H as -> H. now rewrite (IH m' H).
Qed.

Lemma JSMap_has_set_other k k' v m :
  k <> k' -> JSMap.has k (JSMap.set k' v m) = JSMap.has k m.
Proof.
  intros Hne. induction m as [|[k1 v1] m IH]; simpl.
  - destruct (String.eqb_spec k' k); [congruence|reflexivity].
  - destruct (String.eqb_spec k1 k') as [->|Hk]; simpl.
    + reflexivity.
    + now rewrite IH.
Qed.

Lemma JSMap_has_delete_other k k' m :
  k <> k' -> JSMap.has k (JSMap.delete k' m) = JSMap.has k m.
Proof.
  intros Hne. induction m as [|[k1 v1] m IH]; simpl.
  - reflexivity.
  - destruct (String.eqb_spec k1 k') as [->|Hk]; simpl.
    + destruct (String.eqb_spec k' k); [congruence|reflexivity].
    + now rewrite IH.
Qed.


Lemma JSMap_Forall_set (P : string * V -> Prop) k v m :
  Forall P m -> P (k, v) -> Forall P (JSMap.set k v m).
Proof.
  intros Hm Hk. induction Hm as [|[k1 v1] m H1 Hm IH]; simpl.
  - repeat constructor. exact Hk.
  - destruct (String.eqb_spec k1 k) as [->|Hne]; constructor; auto.
Qed.

Lemma JSMap_Forall_delete (P : string * V -> Prop) k m :
  Forall P m -> Forall P (JSMap.delete k m).
Proof.
  intros Hm. induction Hm as [|[k1 v1] m H1 Hm IH]; simpl.
  - constructor.
  - destruct (String.eqb k1 k); [assumption|now constructor].
Qed.

End JSMapMoreFacts.

Lemma mapM_cons {S A B} (f : A -> St.t S B) (x : A) (xs : list A) (s : S) :
  St.mapM f (x :: xs) s
  = (fst (f x s) :: fst (St.mapM f xs (snd (f x s))),
     snd (St.mapM f xs (snd (f x s)))).
Proof.
  simpl. unfold St.bind. destruct (f x s) as [y s1]. simpl.
  destruct (St.mapM f xs s1) as [ys s2]. reflexivity.
Qed.

Lemma forEach_cons {S A} (f : A -> St.t S unit) (x : A) (xs : list A)
  (s : S) :
  snd (St.forEach f (x :: xs) s) = snd (St.forEach f xs (snd (f x s))).
Proof. simpl. unfold St.bind. destruct (f x s) as [[] s1]. reflexivity. Qed.

(** *** What a row callback may change *)

Section RowCallbacks.

Variable f : InvoiceSelector.Invoice
             -> St.t (JSMap.t Allocation) InvoiceSelector.Invoice.

(** The callback keeps id, balance and checkbox of the row and the keys
    of the map. *)
Hypothesis f_frame : forall inv sel,
  InvoiceSelector.id (fst (f inv sel)) = InvoiceSelector.id inv
  /\ InvoiceSelector.balanceDue (fst (f inv sel))
     = InvoiceSelector.balanceDue inv
  /\ InvoiceSelector.selected (fst (f inv sel)) = InvoiceSelector.selected inv
  /\ JSMap.keys (snd (f inv sel)) = JSMap.keys sel.

Lemma rows_frame (rows : list InvoiceSelector.Invoice)
  (sel : JSMap.t Allocation) :
  idBalances (fst (St.mapM f rows sel)) = idBalances rows
  /\ map InvoiceSelector.id (fst (St.mapM f rows sel))
     = map InvoiceSelector.id rows
  /\ map InvoiceSelector.selected (fst (St.mapM f rows sel))
     = map InvoiceSelector.selected rows
  /\ JSMap.keys (snd (St.mapM f rows sel)) = JSMap.keys sel.
Proof.
  revert sel; induction rows as [|inv rows IH]; intros sel.
  - repeat split.
  - rewrite mapM_cons. simpl.
    destruct (f_frame inv sel) as [Hi [Hb [Hs Hk]]].
    destruct (IH (snd (f inv sel))) as [IHb [IHi [IHs IHk]]].
    rewrite Hi, Hb, Hs, IHb, IHi, IHs, IHk, Hk. repeat split.
Qed.

(** Amounts in range are kept, given that the callback keeps them for a
    row whose id and balance are known. *)
Variable balances : list (string * Z).

Hypothesis f_range : forall inv sel,
  rowInRange inv ->
  In (InvoiceSelector.id inv, InvoiceSelector.balanceDue inv) balances ->
  Forall (entryInRange balances) sel ->
  rowInRange (fst (f inv sel))
  /\ Forall (entryInRange balances) (snd (f inv sel)).

Lemma rows_range (rows : list InvoiceSelector.Invoice)
  (sel : JSMap.t Allocation) :
  Forall rowInRange rows ->
  incl (idBalances rows) balances ->
  Forall (entryInRange balances) sel ->
  Forall rowInRange (fst (St.mapM f rows sel))
  /\ Forall (entryInRange balances) (snd (St.mapM f rows sel)).
Proof.
  intros Hr; revert sel. induction Hr as [|inv rows Hinv Hr IH];
    intros sel Hincl Hsel.
  - split; [constructor|exact Hsel].
  - rewrite mapM_cons. simpl.
    destruct (f_range inv sel Hinv) as [H1 H2]; [|assumption|].
    { apply Hincl. now left. }
    destruct (IH (snd (f inv sel))) as [H3 H4]; [|assumption|].
    { intros x Hx. apply Hincl. now right. }
    split; [now constructor|assumption].
Qed.

End RowCallbacks.

Lemma partialAmountRow_frame (invoiceId : string) (amount0 : Z)
  (inv : InvoiceSelector.Invoice) (sel : JSMap.t Allocation) :
  let r := InvoiceSelector.partialAmountRow invoiceId amount0 inv sel in
  InvoiceSelector.id (fst r) = InvoiceSelector.id inv
  /\ InvoiceSelector.balanceDue (fst r) = InvoiceSelector.balanceDue inv
  /\ InvoiceSelector.selected (fst r) = InvoiceSelector.selected inv
  /\ JSMap.keys (snd r) = JSMap.keys sel.
Proof.
  cbv zeta. unfold InvoiceSelector.partialAmountRow.
  destruct (String.eqb (InvoiceSelector.id inv) invoiceId);
    [|repeat split].
  unfold St.bind, St.get, St.put, St.ret.
  destruct (JSMap.has invoiceId sel) eqn:Hh; simpl; repeat split.
  now apply JSMap_keys_set_present.
Qed.

Lemma paymentTypeRow_frame (invoiceId value : string)
  (inv : InvoiceSelector.Invoice) (sel : JSMap.t Allocation) :
  let r := InvoiceSelector.paymentTypeRow invoiceId value inv sel in
  InvoiceSelector.id (fst r) = InvoiceSelector.id inv
  /\ InvoiceSelector.balanceDue (fst r) = InvoiceSelector.balanceDue inv
  /\ InvoiceSelector.selected (fst r) = InvoiceSelector.selected inv
  /\ JSMap.keys (snd r) = JSMap.keys sel.
Proof.
  cbv zeta. unfold InvoiceSelector.paymentTypeRow.
  destruct (String.eqb (InvoiceSelector.id inv) invoiceId);
    [|repeat split].
  unfold St.bind, St.get, St.put, St.ret.
  destruct (JSMap.has invoiceId sel) eqn:Hh; simpl; repeat split.
  now apply JSMap_keys_set_present.
Qed.

Lemma partialAmountRow_range (balances : list (string * Z))
  (invoiceId : string) (amount0 : Z)
  (inv : InvoiceSelector.Invoice) (sel : JSMap.t Allocation) :
  rowInRange inv ->
  In (InvoiceSelector.id inv, InvoiceSelector.balanceDue inv) balances ->
  Forall (entryInRange balances) sel ->
  let r := InvoiceSelector.partialAmountRow invoiceId amount0 inv sel in
  rowInRange (fst r) /\ Forall (entryInRange balances) (snd r).
Proof.
  intros Hr Hin Hsel. cbv zeta. unfold InvoiceSelector.partialAmountRow.
  destruct (String.eqb_spec (InvoiceSelector.id inv) invoiceId) as [He|He];
    [|split; assumption].
  assert (Hv : 0 <= InvoiceSelector.validAmount amount0
                      (InvoiceSelector.balanceDue inv)
               <= InvoiceSelector.balanceDue inv).
  { unfold rowInRange in Hr.
    unfold InvoiceSelector.validAmount, Math_min, Math_max. lia. }
  unfold St.bind, St.get, St.put, St.ret.
  destruct (JSMap.has invoiceId sel); simpl; (split; [exact Hv|]);
    [|assumption].
  apply JSMap_Forall_set; [assumption|].
  split; [reflexivity|]. simpl.
  exists (InvoiceSelector.balanceDue inv). rewrite <- He. now split.
Qed.

Lemma paymentTypeRow_range (balances : list (string * Z))
  (invoiceId value : string)
  (inv : InvoiceSelector.Invoice) (sel : JSMap.t Allocation) :
  rowInRange inv ->
  In (InvoiceSelector.id inv, InvoiceSelector.balanceDue inv) balances ->
  Forall (entryInRange balances) sel ->
  let r := InvoiceSelector.paymentTypeRow invoiceId value inv sel in
  rowInRange (fst r) /\ Forall (entryInRange balances) (snd r).
Proof.
  intros Hr Hin Hsel. cbv zeta. unfold InvoiceSelector.paymentTypeRow.
  destruct (String.eqb_spec (InvoiceSelector.id inv) invoiceId) as [He|He];
    [|split; assumption].
  unfold St.bind, St.get, St.put, St.ret.
  destruct (JSMap.has invoiceId sel); simpl; (split; [exact Hr|]);
    [|assumption].
  apply JSMap_Forall_set; [assumption|].
  split; [reflexivity|]. simpl.
  exists (InvoiceSelector.balanceDue inv). rewrite <- He.
  split; [assumption|]. unfold rowInRange in Hr.
  destruct (String.eqb value "full"); lia.
Qed.

Lemma handlePartialAmountChange_state (invoiceId : string)
  (value : option Z) (s : InvoiceSelector.State) :
  let r := St.mapM (InvoiceSelector.partialAmountRow invoiceId (orZero value))
             (InvoiceSelector.invoices s)
             (InvoiceSelector.selectedInvoices s) in
  InvoiceSelector.handlePartialAmountChange invoiceId value s
  = ({| InvoiceSelector.invoices := fst r;
        InvoiceSelector.selectedInvoices := snd r |},
     InvoiceSelector.notifySelectionChange
       {| InvoiceSelector.invoices := fst r;
          InvoiceSelector.selectedInvoices := snd r |}).
Proof.
  cbv zeta. unfold InvoiceSelector.handlePartialAmountChange.
  destruct (St.mapM _ _ _); reflexivity.
Qed.

Lemma handlePaymentTypeChange_state (invoiceId value : string)
  (s : InvoiceSelector.State) :
  let r := St.mapM (InvoiceSelector.paymentTypeRow invoiceId value)
             (InvoiceSelector.invoices s)
             (InvoiceSelector.selectedInvoices s) in
  InvoiceSelector.handlePaymentTypeChange invoiceId value s
  = ({| InvoiceSelector.invoices := fst r;
        InvoiceSelector.selectedInvoices := snd r |},
     InvoiceSelector.notifySelectionChange
       {| InvoiceSelector.invoices := fst r;
          InvoiceSelector.selectedInvoices := snd r |}).
Proof.
  cbv zeta. unfold InvoiceSelector.handlePaymentTypeChange.
  destruct (St.mapM _ _ _); reflexivity.
Qed.

(** Every handler dispatches the event built from the state it leaves. *)
Lemma step_detail (e : InvoiceSelector.Event)
  (s s' : InvoiceSelector.State) (d : SelectionDetail) :
  InvoiceSelector.step e s = Some (s', d) ->
  d = InvoiceSelector.notifySelectionChange s'.
Proof.
  destruct e as [i c|i v|i v|c|]; simpl.
  - unfold InvoiceSelector.handleInvoiceSelect.
    destruct c; [destruct (InvoiceSelector.findInvoice _ _)|];
      intros [= <- <-] || discriminate; reflexivity.
  - rewrite handlePaymentTypeChange_state. intros [= <- <-]. reflexivity.
  - rewrite handlePartialAmountChange_state. intros [= <- <-]. reflexivity.
  - intros [= <- <-]. reflexivity.
  - intros [= <- <-]. reflexivity.
Qed.

Lemma rows_entries (P : string * Allocation -> Prop)
  (f : InvoiceSelector.Invoice
       -> St.t (JSMap.t Allocation) InvoiceSelector.Invoice) :
  (forall inv sel, Forall P sel -> Forall P (snd (f inv sel))) ->
  forall rows sel, Forall P sel -> Forall P (snd (St.mapM f rows sel)).
Proof.
  intros Hf rows. induction rows as [|inv rows IH]; intros sel Hsel.
  - exact Hsel.
  - rewrite mapM_cons. simpl. apply IH, Hf, Hsel.
Qed.

Lemma partialAmountRow_keyed (target : string) (amount0 : Z)
  (inv : InvoiceSelector.Invoice) (sel : JSMap.t Allocation) :
  Forall (fun entry : string * Allocation =>
            invoiceId (snd entry) = fst entry) sel ->
  Forall (fun entry : string * Allocation =>
            invoiceId (snd entry) = fst entry)
    (snd (InvoiceSelector.partialAmountRow target amount0 inv sel)).
Proof.
  intros H. unfold InvoiceSelector.partialAmountRow.
  destruct (String.eqb (InvoiceSelector.id inv) target); [|exact H].
  unfold St.bind, St.get, St.put, St.ret.
  destruct (JSMap.has target sel); simpl; [|exact H].
  now apply JSMap_Forall_set.
Qed.

Lemma paymentTypeRow_keyed (target value : string)
  (inv : InvoiceSelector.Invoice) (sel : JSMap.t Allocation) :
  Forall (fun entry : string * Allocation =>
            invoiceId (snd entry) = fst entry) sel ->
  Forall (fun entry : string * Allocation =>
            invoiceId (snd entry) = fst entry)
    (snd (InvoiceSelector.paymentTypeRow target value inv sel)).
Proof.
  intros H. unfold InvoiceSelector.paymentTypeRow.
  destruct (String.eqb (InvoiceSelector.id inv) target); [|exact H].
  unfold St.bind, St.get, St.put, St.ret.
  destruct (JSMap.has target sel); simpl; [|exact H].
  now apply JSMap_Forall_set.
Qed.

(** *** Select all *)

Lemma selectAll_entries (P : string * Allocation -> Prop)
  (rows : list InvoiceSelector.Invoice) (sel : JSMap.t Allocation) :
  Forall (fun inv =>
            P (InvoiceSelector.id inv,
               {| invoiceId := InvoiceSelector.id inv;
                  amount := InvoiceSelector.balanceDue inv;
                  isFullPayment := true |})) rows ->
  Forall P sel ->
  Forall P (snd (St.forEach InvoiceSelector.selectAllRow rows sel)).
Proof.
  intros Hr; revert sel. induction Hr as [|inv rows Hinv _ IH];
    intros sel Hsel.
  - exact Hsel.
  - rewrite forEach_cons. apply IH. simpl.
    now apply JSMap_Forall_set.
Qed.

Lemma selectAll_wf (rows : list InvoiceSelector.Invoice)
  (sel : JSMap.t Allocation) :
  JSMap.wf sel ->
  JSMap.wf (snd (St.forEach InvoiceSelector.selectAllRow rows sel)).
Proof.
  revert sel; induction rows as [|inv rows IH]; intros sel Hsel.
  - exact Hsel.
  - rewrite forEach_cons. apply IH. simpl. now apply JSMap_wf_set.
Qed.

Lemma selectAll_has (rows : list InvoiceSelector.Invoice)
  (sel : JSMap.t Allocation) (k : string) :
  JSMap.has k (snd (St.forEach InvoiceSelector.selectAllRow rows sel))
  = JSMap.has k sel
    || existsb (fun inv => String.eqb (InvoiceSelector.id inv) k) rows.
Proof.
  revert sel; induction rows as [|inv rows IH]; intros sel.
  - simpl. now rewrite orb_false_r.
  - rewrite forEach_cons, IH. simpl.
    destruct (String.eqb_spec (InvoiceSelector.id inv) k) as [->|Hne].
    + rewrite JSMap_has_set. now rewrite orb_true_r.
    + rewrite JSMap_has_set_other by congruence. reflexivity.
Qed.


(** *** Amounts stay within the balance due *)

Lemma selectRows_balances (target : string) (checked : bool)
  (rows : list InvoiceSelector.Invoice) :
  idBalances
    (map (fun inv =>
            if String.eqb (InvoiceSelector.id inv) target
            then InvoiceSelector.withSelected inv checked else inv) rows)
  = idBalances rows.
Proof.
  unfold idBalances. rewrite map_map. apply map_ext. intros inv.
  now destruct (String.eqb _ _).
Qed.

Lemma selectRows_range (target : string) (checked : bool)
  (rows : list InvoiceSelector.Invoice) :
  Forall rowInRange rows ->
  Forall rowInRange
    (map (fun inv =>
            if String.eqb (InvoiceSelector.id inv) target
            then InvoiceSelector.withSelected inv checked else inv) rows).
Proof.
  intros H. apply Forall_map. eapply Forall_impl; [|exact H].
  intros inv Hinv. now destruct (String.eqb _ _).
Qed.

Lemma step_AmountsInRange (e : InvoiceSelector.Event)
  (s s' : InvoiceSelector.State) (d : SelectionDetail) :
  AmountsInRange s ->
  InvoiceSelector.step e s = Some (s', d) ->
  AmountsInRange s'.
Proof.
  intros [Hrows Hsel]. destruct e as [i c|i v|i v|c|]; simpl.
  - unfold InvoiceSelector.handleInvoiceSelect. destruct c.
    + rewrite findInvoice_select.
      destruct (InvoiceSelector.findInvoice i (InvoiceSelector.invoices s))
        as [inv0|] eqn:Hf; [|discriminate].
      simpl. intros [= <- _]. split; simpl.
      * now apply selectRows_range.
      * rewrite selectRows_balances.
        apply JSMap_Forall_set; [assumption|].
        apply find_some in Hf. destruct Hf as [Hin He].
        apply String.eqb_eq in He.
        split; [reflexivity|]. simpl.
        exists (InvoiceSelector.balanceDue inv0). split.
        -- rewrite <- He. unfold idBalances.
           apply (in_map (fun inv => (InvoiceSelector.id inv,
                                      InvoiceSelector.balanceDue inv))).
           exact Hin.
        -- pose proof (proj1 (Forall_forall _ _) Hrows inv0 Hin) as Hr.
           unfold rowInRange in Hr. lia.
    + intros [= <- _]. split; simpl.
      * now apply selectRows_range.
      * rewrite selectRows_balances. now apply JSMap_Forall_delete.
  - rewrite handlePaymentTypeChange_state. intros [= <- _].
    destruct (rows_frame _ (paymentTypeRow_frame i v)
                (InvoiceSelector.invoices s)
                (InvoiceSelector.selectedInvoices s)) as [Hb _].
    destruct (rows_range _ (idBalances (InvoiceSelector.invoices s))
                (paymentTypeRow_range _ i v)
                (InvoiceSelector.invoices s)
                (InvoiceSelector.selectedInvoices s) Hrows
                (incl_refl _) Hsel) as [H1 H2].
    split; simpl; [exact H1|]. now rewrite Hb.
  - rewrite handlePartialAmountChange_state. intros [= <- _].
    destruct (rows_frame _ (partialAmountRow_frame i (orZero v))
                (InvoiceSelector.invoices s)
                (InvoiceSelector.selectedInvoices s)) as [Hb _].
    destruct (rows_range _ (idBalances (InvoiceSelector.invoices s))
                (partialAmountRow_range _ i (orZero v))
                (InvoiceSelector.invoices s)
                (InvoiceSelector.selectedInvoices s) Hrows
                (incl_refl _) Hsel) as [H1 H2].
    split; simpl; [exact H1|]. now rewrite Hb.
  - intros [= <- _]. unfold AmountsInRange; simpl.
    assert (Hb : idBalances
                   (map (fun inv => InvoiceSelector.withSelected inv c)
                      (InvoiceSelector.invoices s))
                 = idBalances (InvoiceSelector.invoices s)).
    { unfold idBalances. rewrite map_map. now apply map_ext. }
    assert (Hr : Forall rowInRange
                   (map (fun inv => InvoiceSelector.withSelected inv c)
                      (InvoiceSelector.invoices s))).
    { apply Forall_map. eapply Forall_impl; [|exact Hrows]. now intros. }
    split; [exact Hr|]. rewrite Hb. destruct c; [|constructor].
    apply selectAll_entries; [|assumption].
    apply Forall_map. apply Forall_forall. intros inv Hin.
    split; [reflexivity|]. simpl.
    exists (InvoiceSelector.balanceDue inv). split.
    + unfold idBalances.
      apply (in_map (fun inv => (InvoiceSelector.id inv,
                                 InvoiceSelector.balanceDue inv))).
      exact Hin.
    + pose proof (proj1 (Forall_forall _ _) Hrows inv Hin) as Hri.
      unfold rowInRange in Hri. lia.
  - intros [= <- _]. split; simpl; [|constructor].
    apply Forall_map. eapply Forall_impl; [|exact Hrows].
    intros inv Hri. unfold rowInRange in *. simpl. lia.
Qed.

Lemma run_invariant (P : InvoiceSelector.State -> Prop) :
  (forall e s s' d, P s -> InvoiceSelector.step e s = Some (s', d) -> P s') ->
  forall es s, P s -> P (InvoiceSelector.run es s).
Proof.
  intros Hstep es. induction es as [|e es IH]; intros s Hs; simpl.
  - exact Hs.
  - destruct (InvoiceSelector.step e s) as [[s' d]|] eqn:E.
    + apply IH. eapply Hstep; eauto.
    + now apply IH.
Qed.

Lemma entries_nonneg (balances : list (string * Z))
  (m : JSMap.t Allocation) :
  Forall (entryInRange balances) m ->
  Forall (fun a => 0 <= amount a) (JSMap.values m).
Proof.
  intros H. unfold JSMap.values. apply Forall_map.
  eapply Forall_impl; [|exact H].
  intros entry [_ [b [_ Hb]]]. lia.
Qed.

(** X1.  Rows loaded with balances that are not negative, then any
    sequence of selector events: every row keeps its partial amount within
    [[0, balanceDue]], every entry of the selection map is filed under its
    own invoice id with an amount within [[0, balanceDue]] of a loaded
    invoice with that id, and so the allocations of the event are not
    negative and neither is their total. *)
Theorem selector_amounts_in_range
  (data : list InvoiceSelector.OpenInvoice)
  (es : list InvoiceSelector.Event) :
  Forall (fun inv => 0 <= InvoiceSelector.openBalanceDue inv) data ->
  let s :=
    InvoiceSelector.run es
      (InvoiceSelector.loadInvoices data (InvoiceSelector.initial [])) in
  AmountsInRange s
  /\ Forall (fun a => 0 <= amount a)
       (allocations (InvoiceSelector.notifySelectionChange s))
  /\ 0 <= detailTotalAmount (InvoiceSelector.notifySelectionChange s).
Proof.
  intros Hdata s.
  assert (H : AmountsInRange s).
  { apply run_invariant; [exact step_AmountsInRange|].
    split; simpl; [|constructor].
    apply Forall_map. eapply Forall_impl; [|exact Hdata].
    intros inv Hinv. unfold rowInRange. simpl in *. lia. }
  split; [exact H|].
  assert (Hnn := entries_nonneg _ _ (proj2 H)).
  split; [exact Hnn|]. simpl. rewrite reduceAmounts_sum.
  now apply sumAmounts_nonneg.
Qed.

Lemma selector_amounts_in_range_witness :
  let data :=
    [ {| InvoiceSelector.openId := "inv1";
         InvoiceSelector.openTotalAmount := 100;
         InvoiceSelector.openAmountPaid := 0;
         InvoiceSelector.openBalanceDue := 100 |} ] in
  let s :=
    InvoiceSelector.run
      [ InvoiceSelector.InvoiceSelect "inv1" true;
        InvoiceSelector.PaymentTypeChange "inv1" "partial";
        InvoiceSelector.PartialAmountChange "inv1" (Some (-7)) ]
      (InvoiceSelector.loadInvoices data (InvoiceSelector.initial [])) in
  AmountsInRange s
  /\ Forall (fun a => 0 <= amount a)
       (allocations (InvoiceSelector.notifySelectionChange s))
  /\ 0 <= detailTotalAmount (InvoiceSelector.notifySelectionChange s).
Proof.
  intros data s. apply (selector_amounts_in_range data).
  repeat constructor; simpl; lia.
Defined.

(** *** Checkboxes and map agree *)

Lemma sync_lists (m : JSMap.t Allocation)
  (rows : list InvoiceSelector.Invoice) :
  Forall (fun inv =>
            InvoiceSelector.selected inv
            = JSMap.has (InvoiceSelector.id inv) m) rows
  <-> map InvoiceSelector.selected rows
      = map (fun k => JSMap.has k m) (map InvoiceSelector.id rows).
Proof.
  induction rows as [|inv rows IH]; simpl.
  - split; [reflexivity|constructor].
  - split.
    + intros H. inversion H as [|? ? H1 H2]; subst.
      rewrite H1. f_equal. now apply IH.
    + intros [= H1 H2]. constructor; [exact H1|now apply IH].
Qed.

Lemma rows_sync (f : InvoiceSelector.Invoice
                     -> St.t (JSMap.t Allocation) InvoiceSelector.Invoice)
  (rows : list InvoiceSelector.Invoice) (sel : JSMap.t Allocation) :
  (forall inv sel,
      InvoiceSelector.id (fst (f inv sel)) = InvoiceSelector.id inv
      /\ InvoiceSelector.balanceDue (fst (f inv sel))
         = InvoiceSelector.balanceDue inv
      /\ InvoiceSelector.selected (fst (f inv sel))
         = InvoiceSelector.selected inv
      /\ JSMap.keys (snd (f inv sel)) = JSMap.keys sel) ->
  (forall inv sel,
      Forall (fun entry : string * Allocation =>
                invoiceId (snd entry) = fst entry) sel ->
      Forall (fun entry : string * Allocation =>
                invoiceId (snd entry) = fst entry) (snd (f inv sel))) ->
  InSync {| InvoiceSelector.invoices := rows;
            InvoiceSelector.selectedInvoices := sel |} ->
  InSync {| InvoiceSelector.invoices := fst (St.mapM f rows sel);
            InvoiceSelector.selectedInvoices := snd (St.mapM f rows sel) |}.
Proof.
  intros Hframe Hkeyed [Hwf [Hk Hs]]. simpl in *.
  destruct (rows_frame f Hframe rows sel) as [_ [Hi [Hsel Hkeys]]].
  split; [|split]; simpl.
  - unfold JSMap.wf in *. now rewrite Hkeys.
  - now apply rows_entries.
  - apply sync_lists. rewrite Hsel, Hi. apply sync_lists in Hs.
    rewrite Hs. apply map_ext. intros k. now apply JSMap_has_ext.
Qed.

Lemma step_InSync (e : InvoiceSelector.Event)
  (s s' : InvoiceSelector.State) (d : SelectionDetail) :
  InSync s ->
  InvoiceSelector.step e s = Some (s', d) ->
  InSync s'.
Proof.
  intros Hs. destruct e as [i c|i v|i v|c|]; simpl.
  - destruct Hs as [Hwf [Hk Hrows]].
    unfold InvoiceSelector.handleInvoiceSelect. destruct c.
    + destruct (InvoiceSelector.findInvoice _ _) as [inv0|]; [|discriminate].
      intros [= <- _]. split; [|split]; simpl.
      * now apply JSMap_wf_set.
      * now apply JSMap_Forall_set.
      * apply Forall_map. eapply Forall_impl; [|exact Hrows].
        intros inv Hinv. simpl in Hinv.
        destruct (String.eqb_spec (InvoiceSelector.id inv) i) as [He|He].
        -- simpl. rewrite He. now rewrite JSMap_has_set.
        -- now rewrite JSMap_has_set_other.
    + intros [= <- _]. split; [|split]; simpl.
      * now apply JSMap_wf_delete.
      * now apply JSMap_Forall_delete.
      * apply Forall_map. eapply Forall_impl; [|exact Hrows].
        intros inv Hinv. simpl in Hinv.
        destruct (String.eqb_spec (InvoiceSelector.id inv) i) as [He|He].
        -- simpl. rewrite He. now rewrite JSMap_has_delete.
        -- now rewrite JSMap_has_delete_other.
  - rewrite handlePaymentTypeChange_state. intros [= <- _].
    apply rows_sync.
    + apply paymentTypeRow_frame.
    + apply paymentTypeRow_keyed.
    + now destruct s.
  - rewrite handlePartialAmountChange_state. intros [= <- _].
    apply rows_sync.
    + apply partialAmountRow_frame.
    + apply partialAmountRow_keyed.
    + now destruct s.
  - destruct Hs as [Hwf [Hk Hrows]]. intros [= <- _]. destruct c.
    + split; [|split]; simpl.
      * now apply selectAll_wf.
      * apply selectAll_entries; [|assumption].
        apply Forall_forall. now intros.
      * apply Forall_forall. intros inv Hin. rewrite selectAll_has.
        assert (existsb
                  (fun inv0 =>
                     String.eqb (InvoiceSelector.id inv0)
                       (InvoiceSelector.id inv))
                  (map (fun inv0 => InvoiceSelector.withSelected inv0 true)
                     (InvoiceSelector.invoices s)) = true) as ->.
        { apply existsb_exists. exists inv. split; [exact Hin|].
          apply String.eqb_refl. }
        rewrite orb_true_r. apply in_map_iff in Hin.
        destruct Hin as [inv0 [<- _]]. reflexivity.
    + split; [|split]; simpl.
      * constructor.
      * constructor.
      * apply Forall_map, Forall_forall. now intros.
  - intros [= <- _]. split; [|split]; simpl.
    + constructor.
    + constructor.
    + apply Forall_map, Forall_forall. now intros.
Qed.

Lemma keyed_In (m : JSMap.t Allocation) (k : string) :
  Forall (fun entry : string * Allocation =>
            invoiceId (snd entry) = fst entry) m ->
  (JSMap.has k m = true
   <-> exists a, In a (JSMap.values m) /\ invoiceId a = k).
Proof.
  intros H. rewrite JSMap_has_keys. unfold JSMap.keys, JSMap.values.
  rewrite in_map_iff. split.
  - intros [[k' a] [Hk Hin]]. simpl in Hk. subst k'. exists a. split.
    + apply in_map_iff. exists (k, a). now split.
    + exact (proj1 (Forall_forall _ _) H (k, a) Hin).
  - intros [a [Hin Ha]]. apply in_map_iff in Hin.
    destruct Hin as [[k' a'] [Hs Hin]]. simpl in Hs. subst a'.
    exists (k', a). split; [|exact Hin].
    pose proof (proj1 (Forall_forall _ _) H (k', a) Hin) as Hk.
    simpl in *. congruence.
Qed.

(** X2.  After any sequence of selector events on freshly loaded rows,
    the keys of the selection map are distinct and a row is shown as
    selected exactly when the allocations of the event hold one for its
    invoice id. *)
Theorem selector_checkboxes_in_sync
  (data : list InvoiceSelector.OpenInvoice)
  (es : list InvoiceSelector.Event) :
  let s :=
    InvoiceSelector.run es
      (InvoiceSelector.loadInvoices data (InvoiceSelector.initial [])) in
  InSync s
  /\ forall inv,
       In inv (InvoiceSelector.invoices s) ->
       (InvoiceSelector.selected inv = true
        <-> exists a,
              In a (allocations (InvoiceSelector.notifySelectionChange s))
              /\ invoiceId a = InvoiceSelector.id inv).
Proof.
  intros s.
  assert (H : InSync s).
  { apply run_invariant; [exact step_InSync|].
    split; [|split]; simpl; try constructor.
    apply Forall_map, Forall_forall. now intros. }
  split; [exact H|]. intros inv Hin. destruct H as [_ [Hk Hrows]].
  rewrite (proj1 (Forall_forall _ _) Hrows inv Hin).
  now apply keyed_In.
Qed.

Lemma selector_checkboxes_in_sync_witness :
  let data :=
    [ {| InvoiceSelector.openId := "inv1";
         InvoiceSelector.openTotalAmount := 100;
         InvoiceSelector.openAmountPaid := 0;
         InvoiceSelector.openBalanceDue := 100 |};
      {| InvoiceSelector.openId := "inv2";
         InvoiceSelector.openTotalAmount := 60;
         InvoiceSelector.openAmountPaid := 10;
         InvoiceSelector.openBalanceDue := 50 |} ] in
  let s :=
    InvoiceSelector.run
      [ InvoiceSelector.SelectAll true;
        InvoiceSelector.InvoiceSelect "inv1" false ]
      (InvoiceSelector.loadInvoices data (InvoiceSelector.initial [])) in
  exists a,
    In a (allocations (InvoiceSelector.notifySelectionChange s))
    /\ invoiceId a = "inv2"%string.
Proof.
  intros data s.
  apply (proj2 (selector_checkboxes_in_sync data
                  [ InvoiceSelector.SelectAll true;
                    InvoiceSelector.InvoiceSelect "inv1" false ])
           {| InvoiceSelector.id := "inv2";
              InvoiceSelector.totalAmount := 60;
              InvoiceSelector.amountPaid := 10;
              InvoiceSelector.balanceDue := 50;
              InvoiceSelector.selected := true;
              InvoiceSelector.paymentType := "full";
              InvoiceSelector.paymentAmount := 50 |}).
  - right. left. reflexivity.
  - reflexivity.
Defined.

(** X3.  A change of payment type or of the partial amount never selects,
    deselects or reorders: the keys of the selection map, the ids and the
    checkboxes of the rows are as before, and the count of the event is
    the size of the map as it was. *)
Theorem payment_handlers_keep_selection (target value : string)
  (typed : option Z) (s : InvoiceSelector.State) :
  let r1 := InvoiceSelector.handlePaymentTypeChange target value s in
  let r2 := InvoiceSelector.handlePartialAmountChange target typed s in
  (JSMap.keys (InvoiceSelector.selectedInvoices (fst r1))
   = JSMap.keys (InvoiceSelector.selectedInvoices s)
   /\ map InvoiceSelector.id (InvoiceSelector.invoices (fst r1))
      = map InvoiceSelector.id (InvoiceSelector.invoices s)
   /\ map InvoiceSelector.selected (InvoiceSelector.invoices (fst r1))
      = map InvoiceSelector.selected (InvoiceSelector.invoices s)
   /\ detailInvoiceCount (snd r1)
      = JSMap.size (InvoiceSelector.selectedInvoices s))
  /\ (JSMap.keys (InvoiceSelector.selectedInvoices (fst r2))
      = JSMap.keys (InvoiceSelector.selectedInvoices s)
      /\ map InvoiceSelector.id (InvoiceSelector.invoices (fst r2))
         = map InvoiceSelector.id (InvoiceSelector.invoices s)
      /\ map InvoiceSelector.selected (InvoiceSelector.invoices (fst r2))
         = map InvoiceSelector.selected (InvoiceSelector.invoices s)
      /\ detailInvoiceCount (snd r2)
         = JSMap.size (InvoiceSelector.selectedInvoices s)).
Proof.
  cbv zeta.
  rewrite handlePaymentTypeChange_state, handlePartialAmountChange_state.
  cbv zeta. simpl.
  destruct (rows_frame _ (paymentTypeRow_frame target value)
              (InvoiceSelector.invoices s)
              (InvoiceSelector.selectedInvoices s)) as [_ [Hi1 [Hs1 Hk1]]].
  destruct (rows_frame _ (partialAmountRow_frame target (orZero typed))
              (InvoiceSelector.invoices s)
              (InvoiceSelector.selectedInvoices s)) as [_ [Hi2 [Hs2 Hk2]]].
  unfold JSMap.values, JSMap.size, JSMap.keys in *.
  repeat split; try assumption.
  - rewrite length_map, <- (length_map fst), Hk1. now rewrite length_map.
  - rewrite length_map, <- (length_map fst), Hk2. now rewrite length_map.
Qed.

(** *** Select all, entry by entry *)





(** *** The public getters *)

Lemma getTotalAmount_sum (l : list Allocation) (acc : Z) :
  snd (St.forEach
         (fun sel : Allocation =>
            total <- St.get ;; St.put (total + amount sel)) l acc)
  = acc + sumAmounts l.
Proof.
  revert acc; induction l as [|a l IH]; intros acc.
  - simpl. lia.
  - rewrite forEach_cons, IH. simpl. lia.
Qed.

(** X5.  After every event the public getters return what the event
    carried: [getSelections] its allocations, [getTotalAmount] its total
    and [selectedCount] its count, and the event is the one built from
    the state the handler left. *)
Theorem getters_agree_with_event (e : InvoiceSelector.Event)
  (s s' : InvoiceSelector.State) (d : SelectionDetail) :
  InvoiceSelector.step e s = Some (s', d) ->
  InvoiceSelector.getSelections s' = allocations d
  /\ InvoiceSelector.getTotalAmount s' = detailTotalAmount d
  /\ InvoiceSelector.selectedCount s' = detailInvoiceCount d.
Proof.
  intros H. rewrite (step_detail e s s' d H). simpl.
  split; [reflexivity|]. split.
  - unfold InvoiceSelector.getTotalAmount.
    rewrite getTotalAmount_sum, reduceAmounts_sum. lia.
  - unfold InvoiceSelector.selectedCount, JSMap.size, JSMap.values.
    now rewrite length_map.
Qed.

Lemma getters_agree_with_event_witness :
  let s :=
    InvoiceSelector.loadInvoices
      [ {| InvoiceSelector.openId := "inv1";
           InvoiceSelector.openTotalAmount := 100;
           InvoiceSelector.openAmountPaid := 0;
           InvoiceSelector.openBalanceDue := 100 |} ]
      (InvoiceSelector.initial []) in
  let r := InvoiceSelector.handleSelectAll true s in
  InvoiceSelector.getSelections (fst r) = allocations (snd r)
  /\ InvoiceSelector.getTotalAmount (fst r) = detailTotalAmount (snd r)
  /\ InvoiceSelector.selectedCount (fst r) = detailInvoiceCount (snd r).
Proof.
  intros s r.
  apply (getters_agree_with_event (InvoiceSelector.SelectAll true) s).
  reflexivity.
Defined.

(** *** One row, one entry *)

Section RowUpdate.

Variable target : string.
Variable g : InvoiceSelector.Invoice -> InvoiceSelector.Invoice.
Variable entryOf : InvoiceSelector.Invoice -> Allocation.
Variable f : InvoiceSelector.Invoice
             -> St.t (JSMap.t Allocation) InvoiceSelector.Invoice.

Hypothesis f_shape : forall inv sel,
  f inv sel
  = if String.eqb (InvoiceSelector.id inv) target
    then (g inv,
          if JSMap.has target sel then JSMap.set target (entryOf inv) sel
          else sel)
    else (inv, sel).

Hypothesis g_id : forall inv, InvoiceSelector.id (g inv) = InvoiceSelector.id inv.

Lemma updRow_ids (rows : list InvoiceSelector.Invoice) :
  map InvoiceSelector.id (map (updRow target g) rows)
  = map InvoiceSelector.id rows.
Proof.
  rewrite map_map. apply map_ext. intros inv. unfold updRow.
  destruct (String.eqb _ _); [apply g_id|reflexivity].
Qed.

Lemma rows_fst (rows : list InvoiceSelector.Invoice)
  (sel : JSMap.t Allocation) :
  fst (St.mapM f rows sel) = map (updRow target g) rows.
Proof.
  revert sel; induction rows as [|inv rows IH]; intros sel.
  - reflexivity.
  - rewrite mapM_cons. simpl. rewrite IH. f_equal.
    rewrite f_shape. unfold updRow. now destruct (String.eqb _ _).
Qed.

Lemma rows_snd_absent (rows : list InvoiceSelector.Invoice)
  (sel : JSMap.t Allocation) :
  ~ In target (map InvoiceSelector.id rows) ->
  snd (St.mapM f rows sel) = sel.
Proof.
  revert sel; induction rows as [|inv rows IH]; intros sel Hn.
  - reflexivity.
  - rewrite mapM_cons. simpl. simpl in Hn. rewrite f_shape.
    destruct (String.eqb_spec (InvoiceSelector.id inv) target) as [He|He];
      [tauto|].
    simpl. apply IH. tauto.
Qed.

Lemma rows_snd (rows : list InvoiceSelector.Invoice)
  (sel : JSMap.t Allocation) (inv : InvoiceSelector.Invoice) :
  NoDup (map InvoiceSelector.id rows) ->
  In inv rows ->
  InvoiceSelector.id inv = target ->
  JSMap.has target sel = true ->
  snd (St.mapM f rows sel) = JSMap.set target (entryOf inv) sel.
Proof.
  revert sel; induction rows as [|r rows IH]; intros sel Hnd Hin Hid Hhas.
  - destruct Hin.
  - rewrite mapM_cons. simpl in Hnd |- *.
    apply NoDup_cons_iff in Hnd. destruct Hnd as [Hn Hnd'].
    rewrite f_shape.
    destruct (String.eqb_spec (InvoiceSelector.id r) target) as [He|He].
    + assert (Hr : r = inv).
      { destruct Hin as [Hr|Hr]; [exact Hr|]. exfalso. apply Hn.
        rewrite He, <- Hid. now apply in_map. }
      rewrite Hr in *. simpl. rewrite Hhas. apply rows_snd_absent.
      now rewrite <- He.
    + simpl. apply IH; try assumption.
      destruct Hin as [Hr|Hr]; [congruence|exact Hr].
Qed.

End RowUpdate.

Lemma partialAmountRow_shape (target : string) (amount0 : Z)
  (inv : InvoiceSelector.Invoice) (sel : JSMap.t Allocation) :
  InvoiceSelector.partialAmountRow target amount0 inv sel
  = if String.eqb (InvoiceSelector.id inv) target
    then (InvoiceSelector.withPaymentAmount inv
            (InvoiceSelector.validAmount amount0
               (InvoiceSelector.balanceDue inv)),
          if JSMap.has target sel
          then JSMap.set target
                 {| invoiceId := target;
                    amount := InvoiceSelector.validAmount amount0
                                (InvoiceSelector.balanceDue inv);
                    isFullPayment := false |} sel
          else sel)
    else (inv, sel).
Proof.
  unfold InvoiceSelector.partialAmountRow.
  destruct (String.eqb _ _); [|reflexivity].
  unfold St.bind, St.get, St.put, St.ret.
  now destruct (JSMap.has target sel).
Qed.

Lemma paymentTypeRow_shape (target value : string)
  (inv : InvoiceSelector.Invoice) (sel : JSMap.t Allocation) :
  InvoiceSelector.paymentTypeRow target value inv sel
  = if String.eqb (InvoiceSelector.id inv) target
    then (InvoiceSelector.withPaymentType inv value,
          if JSMap.has target sel
          then JSMap.set target
                 {| invoiceId := target;
                    amount := if String.eqb value "full"
                              then InvoiceSelector.balanceDue inv
                              else InvoiceSelector.paymentAmount inv;
                    isFullPayment := String.eqb value "full" |} sel
          else sel)
    else (inv, sel).
Proof.
  unfold InvoiceSelector.paymentTypeRow.
  destruct (String.eqb _ _); [|reflexivity].
  unfold St.bind, St.get, St.put, St.ret.
  now destruct (JSMap.has target sel).
Qed.

(** The state a payment handler leaves for a selected invoice among rows
    with distinct ids. *)
Lemma handlePartialAmountChange_selected (target : string)
  (typed : option Z) (s : InvoiceSelector.State)
  (inv : InvoiceSelector.Invoice) :
  NoDup (map InvoiceSelector.id (InvoiceSelector.invoices s)) ->
  In inv (InvoiceSelector.invoices s) ->
  InvoiceSelector.id inv = target ->
  JSMap.has target (InvoiceSelector.selectedInvoices s) = true ->
  let g := fun r =>
    InvoiceSelector.withPaymentAmount r
      (InvoiceSelector.validAmount (orZero typed)
         (InvoiceSelector.balanceDue r)) in
  fst (InvoiceSelector.handlePartialAmountChange target typed s)
  = {| InvoiceSelector.invoices :=
         map (updRow target g) (InvoiceSelector.invoices s);
       InvoiceSelector.selectedInvoices :=
         JSMap.set target
           {| invoiceId := target;
              amount := InvoiceSelector.validAmount (orZero typed)
                          (InvoiceSelector.balanceDue inv);
              isFullPayment := false |}
           (InvoiceSelector.selectedInvoices s) |}.
Proof.
  intros Hnd Hin Hid Hhas g.
  rewrite handlePartialAmountChange_state. cbv zeta. simpl. f_equal.
  - apply (rows_fst target g _ _ (partialAmountRow_shape target _)).
  - apply (rows_snd target g
             (fun r => {| invoiceId := target;
                          amount := InvoiceSelector.validAmount
                                      (orZero typed)
                                      (InvoiceSelector.balanceDue r);
                          isFullPayment := false |})
             _ (partialAmountRow_shape target _)); assumption.
Qed.

Lemma handlePaymentTypeChange_selected (target value : string)
  (s : InvoiceSelector.State) (inv : InvoiceSelector.Invoice) :
  NoDup (map InvoiceSelector.id (InvoiceSelector.invoices s)) ->
  In inv (InvoiceSelector.invoices s) ->
  InvoiceSelector.id inv = target ->
  JSMap.has target (InvoiceSelector.selectedInvoices s) = true ->
  let g := fun r => InvoiceSelector.withPaymentType r value in
  fst (InvoiceSelector.handlePaymentTypeChange target value s)
  = {| InvoiceSelector.invoices :=
         map (updRow target g) (InvoiceSelector.invoices s);
       InvoiceSelector.selectedInvoices :=
         JSMap.set target
           {| invoiceId := target;
              amount := if String.eqb value "full"
                        then InvoiceSelector.balanceDue inv
                        else InvoiceSelector.paymentAmount inv;
              isFullPayment := String.eqb value "full" |}
           (InvoiceSelector.selectedInvoices s) |}.
Proof.
  intros Hnd Hin Hid Hhas g.
  rewrite handlePaymentTypeChange_state. cbv zeta. simpl. f_equal.
  - apply (rows_fst target g _ _ (paymentTypeRow_shape target value)).
  - apply (rows_snd target g
             (fun r => {| invoiceId := target;
                          amount := if String.eqb value "full"
                                    then InvoiceSelector.balanceDue r
                                    else InvoiceSelector.paymentAmount r;
                          isFullPayment := String.eqb value "full" |})
             _ (paymentTypeRow_shape target value)); assumption.
Qed.

(** X6.  For a selected invoice among rows with distinct ids: once a
    partial amount is typed, switching the payment type to full files the
    balance due as a full payment, and switching back to partial brings
    the selection map back to what it was after the amount was typed, the
    clamped amount included. *)
Theorem payment_type_full_and_back (target : string) (typed : option Z)
  (s : InvoiceSelector.State) (inv : InvoiceSelector.Invoice) :
  NoDup (map InvoiceSelector.id (InvoiceSelector.invoices s)) ->
  In inv (InvoiceSelector.invoices s) ->
  InvoiceSelector.id inv = target ->
  JSMap.has target (InvoiceSelector.selectedInvoices s) = true ->
  let s1 := fst (InvoiceSelector.handlePartialAmountChange target typed s) in
  let s2 := fst (InvoiceSelector.handlePaymentTypeChange target "full" s1) in
  let s3 :=
    fst (InvoiceSelector.handlePaymentTypeChange target "partial" s2) in
  JSMap.get target (InvoiceSelector.selectedInvoices s2)
  = Some {| invoiceId := target;
            amount := InvoiceSelector.balanceDue inv;
            isFullPayment := true |}
  /\ InvoiceSelector.selectedInvoices s3 = InvoiceSelector.selectedInvoices s1
  /\ JSMap.get target (InvoiceSelector.selectedInvoices s3)
     = Some {| invoiceId := target;
               amount := clampAmount (orZero typed)
                           (InvoiceSelector.balanceDue inv);
               isFullPayment := false |}.
Proof.
  intros Hnd Hin Hid Hhas s1 s2 s3.
  set (g1 := fun r =>
               InvoiceSelector.withPaymentAmount r
                 (InvoiceSelector.validAmount (orZero typed)
                    (InvoiceSelector.balanceDue r))).
  set (g2 := fun r => InvoiceSelector.withPaymentType r "full").
  assert (Hup : forall g x rows,
             InvoiceSelector.id x = target ->
             In x rows -> In (g x) (map (updRow target g) rows)).
  { intros g x rows Hx H.
    replace (g x) with (updRow target g x).
    - now apply in_map.
    - unfold updRow. rewrite Hx. now rewrite String.eqb_refl. }
  assert (Hid' : forall g rows,
             (forall r, InvoiceSelector.id (g r) = InvoiceSelector.id r) ->
             map InvoiceSelector.id (map (updRow target g) rows)
             = map InvoiceSelector.id rows).
  { intros g rows Hg. now apply updRow_ids. }
  assert (E1 := handlePartialAmountChange_selected target typed s inv
                  Hnd Hin Hid Hhas).
  cbv zeta in E1. fold g1 in E1. fold s1 in E1.
  assert (P1 : NoDup (map InvoiceSelector.id (InvoiceSelector.invoices s1))
               /\ In (g1 inv) (InvoiceSelector.invoices s1)
               /\ JSMap.has target (InvoiceSelector.selectedInvoices s1)
                  = true).
  { rewrite E1. simpl. rewrite Hid' by reflexivity.
    split; [exact Hnd|]. split; [now apply Hup|apply JSMap_has_set]. }
  destruct P1 as [Hnd1 [Hin1 Hhas1]].
  assert (E2 := handlePaymentTypeChange_selected target "full" s1 (g1 inv)
                  Hnd1 Hin1 Hid Hhas1).
  cbv zeta in E2. fold g2 in E2. fold s2 in E2.
  assert (P2 : NoDup (map InvoiceSelector.id (InvoiceSelector.invoices s2))
               /\ In (g2 (g1 inv)) (InvoiceSelector.invoices s2)
               /\ JSMap.has target (InvoiceSelector.selectedInvoices s2)
                  = true).
  { rewrite E2. simpl. rewrite Hid' by reflexivity.
    split; [exact Hnd1|].
    split; [apply Hup; [exact Hid|exact Hin1]|apply JSMap_has_set]. }
  destruct P2 as [Hnd2 [Hin2 Hhas2]].
  assert (E3 := handlePaymentTypeChange_selected target "partial" s2
                  (g2 (g1 inv)) Hnd2 Hin2 Hid Hhas2).
  fold s3 in E3.
  cbv zeta in E3.
  split; [|split].
  - rewrite E2. simpl. apply JSMap_get_set.
  - rewrite E3, E2, E1. simpl. now rewrite !JSMap_set_set.
  - rewrite E3. simpl. apply JSMap_get_set.
Qed.

Lemma payment_type_full_and_back_witness :
  let s :=
    fst (InvoiceSelector.handleSelectAll true
           (InvoiceSelector.loadInvoices
              [ {| InvoiceSelector.openId := "inv1";
                   InvoiceSelector.openTotalAmount := 100;
                   InvoiceSelector.openAmountPaid := 0;
                   InvoiceSelector.openBalanceDue := 100 |} ]
              (InvoiceSelector.initial []))) in
  let s1 :=
    fst (InvoiceSelector.handlePartialAmountChange "inv1" (Some 40) s) in
  let s2 := fst (InvoiceSelector.handlePaymentTypeChange "inv1" "full" s1) in
  let s3 :=
    fst (InvoiceSelector.handlePaymentTypeChange "inv1" "partial" s2) in
  JSMap.get "inv1" (InvoiceSelector.selectedInvoices s2)
  = Some {| invoiceId := "inv1"; amount := 100; isFullPayment := true |}
  /\ InvoiceSelector.selectedInvoices s3 = InvoiceSelector.selectedInvoices s1
  /\ JSMap.get "inv1" (InvoiceSelector.selectedInvoices s3)
     = Some {| invoiceId := "inv1"; amount := clampAmount 40 100;
               isFullPayment := false |}.
Proof.
  intros s.
  apply (payment_type_full_and_back "inv1" (Some 40) s
           {| InvoiceSelector.id := "inv1";
              InvoiceSelector.totalAmount := 100;
              InvoiceSelector.amountPaid := 0;
              InvoiceSelector.balanceDue := 100;
              InvoiceSelector.selected := true;
              InvoiceSelector.paymentType := "full";
              InvoiceSelector.paymentAmount := 100 |}).
  - repeat constructor. simpl. tauto.
  - left. reflexivity.
  - reflexivity.
  - reflexivity.
Defined.

(** * Further properties of the account payment *)






(** X9.  With at least one active gateway, [loadGateways] selects the id
    of a gateway of the list: the first one flagged as default when there
    is one, the first of the list otherwise; with no gateway the
    selection is left as it was. *)
Theorem loadGateways_selects_listed_gateway (gateways : list Gateway)
  (before : option string) :
  (gateways = [] -> loadGateways gateways before = before)
  /\ (gateways <> [] ->
      exists g,
        In g gateways
        /\ loadGateways gateways before = Some (gatewayId g)
        /\ (isDefault g = true \/ Forall (fun g' => isDefault g' = false) gateways)
        /\ (isDefault g = false -> hd_error gateways = Some g)).
Proof.
  split; [intros ->; reflexivity|].
  intros Hne. destruct gateways as [|first rest]; [contradiction|].
  unfold loadGateways.
  destruct (find isDefault (first :: rest)) as [g|] eqn:Hf.
  - apply find_some in Hf. destruct Hf as [Hin Hd].
    exists g. repeat split; auto. intros Hnd. congruence.
  - exists first. split; [now left|]. split; [reflexivity|]. split.
    + right. apply Forall_forall. intros g' Hin.
      pose proof (find_none _ _ Hf g' Hin) as H. exact H.
    + reflexivity.
Qed.

Lemma loadGateways_selects_listed_gateway_witness :
  let gateways :=
    [ {| gatewayId := "gw1"; gatewayName := "Main";
         gatewayType := "Stripe"; isDefault := false |};
      {| gatewayId := "gw2"; gatewayName := "Backup";
         gatewayType := "Authorize.Net"; isDefault := true |} ] in
  exists g,
    In g gateways
    /\ loadGateways gateways None = Some (gatewayId g)
    /\ (isDefault g = true \/ Forall (fun g' => isDefault g' = false) gateways)
    /\ (isDefault g = false -> hd_error gateways = Some g).
Proof.
  intros gateways.
  apply (proj2 (loadGateways_selects_listed_gateway gateways None)).
  discriminate.
Defined.

(** * Further properties of the single-invoice payment *)

Lemma InvoicePayment_run_app (es1 es2 : list InvoicePayment.Event)
  (s : InvoicePayment.State) :
  InvoicePayment.run (es1 ++ es2) s
  = InvoicePayment.run es2 (InvoicePayment.run es1 s).
Proof. unfold InvoicePayment.run. apply fold_left_app. Qed.

(** What the handlers keep: the record and its balance, a payment type
    out of the two options, and a partial amount under a positive
    balance. *)
Lemma InvoicePayment_run_invariant (recordId : string)
  (balance : option Z) (es : list InvoicePayment.Event) :
  Forall InvoicePayment.fromOptions es ->
  let s := InvoicePayment.run es (InvoicePayment.initial recordId balance) in
  InvoicePayment.recordId s = recordId
  /\ InvoicePayment.invoiceBalance s = balance
  /\ (InvoicePayment.paymentType s = "full"%string
      \/ InvoicePayment.paymentType s = "partial"%string)
  /\ (0 < orZero balance -> InvoicePayment.partialAmount s <= orZero balance).
Proof.
  intros Hes. cbv zeta.
  induction es as [|e es IH] using rev_ind.
  - simpl. repeat split; auto. lia.
  - rewrite InvoicePayment_run_app. simpl.
    apply Forall_app in Hes. destruct Hes as [Hes He].
    inversion He as [|? ? Hopt _]; subst.
    destruct (IH Hes) as [Hr [Hb [Ht Hp]]].
    destruct e as [value|value]; simpl.
    + repeat split; auto.
      unfold InvoicePayment.balanceDue. rewrite Hb.
      destruct (String.eqb value "full"); lia.
    + repeat split; auto.
      unfold InvoicePayment.balanceDue, Math_min. rewrite Hb. lia.
Qed.

(** X10.  In the single-invoice flow, after any changes of payment type
    (out of the two options) and of the partial amount, a payment that can
    be submitted has an amount within [(0, balanceDue]]: the one
    allocation carries that amount for the invoice of the record, and a
    full payment carries the balance due.  Zero and negative amounts do
    not pass [canSubmit]. *)
Theorem single_invoice_submittable_amount (recordId : string)
  (balance : option Z) (es : list InvoicePayment.Event) :
  Forall InvoicePayment.fromOptions es ->
  let s := InvoicePayment.run es (InvoicePayment.initial recordId balance) in
  InvoicePayment.canSubmit s = true ->
  0 < InvoicePayment.paymentAmount s <= InvoicePayment.balanceDue s
  /\ InvoicePayment.invoiceAllocations s
     = [ {| invoiceId := recordId;
            amount := InvoicePayment.paymentAmount s;
            isFullPayment :=
              String.eqb (InvoicePayment.paymentType s) "full" |} ]
  /\ (InvoicePayment.paymentType s = "full"%string ->
      InvoicePayment.paymentAmount s = InvoicePayment.balanceDue s).
Proof.
  intros Hes s.
  destruct (InvoicePayment_run_invariant recordId balance es Hes)
    as [Hr [Hb [Ht Hp]]].
  fold s in Hr, Hb, Ht, Hp.
  unfold InvoicePayment.canSubmit, InvoicePayment.paymentAmount,
    InvoicePayment.invoiceAllocations, InvoicePayment.paymentAmount,
    InvoicePayment.balanceDue.
  rewrite Hr, Hb.
  destruct (orZero balance <=? 0) eqn:Eb; [discriminate|].
  apply Z.leb_gt in Eb. specialize (Hp Eb).
  destruct Ht as [Ht|Ht]; rewrite Ht; simpl.
  - intros _. repeat split; try lia.
  - destruct (InvoicePayment.partialAmount s <=? 0) eqn:Ep; [discriminate|].
    apply Z.leb_gt in Ep. intros _. repeat split; try lia. discriminate.
Qed.

Lemma single_invoice_submittable_amount_witness :
  let s :=
    InvoicePayment.run
      [ InvoicePayment.PaymentTypeChange "partial";
        InvoicePayment.PartialAmountChange (Some 40) ]
      (InvoicePayment.initial "inv1" (Some 100)) in
  0 < InvoicePayment.paymentAmount s <= InvoicePayment.balanceDue s
  /\ InvoicePayment.invoiceAllocations s
     = [ {| invoiceId := "inv1";
            amount := InvoicePayment.paymentAmount s;
            isFullPayment :=
              String.eqb (InvoicePayment.paymentType s) "full" |} ]
  /\ (InvoicePayment.paymentType s = "full"%string ->
      InvoicePayment.paymentAmount s = InvoicePayment.balanceDue s).
Proof.
  intros s.
  apply (single_invoice_submittable_amount "inv1" (Some 100)
           [ InvoicePayment.PaymentTypeChange "partial";
             InvoicePayment.PartialAmountChange (Some 40) ]).
  - constructor; [right; reflexivity|].
    constructor; [exact I|constructor].
  - reflexivity.
Defined.

(** * The cart of the call-center payment *)

Section Cart.

Import CallCenterPayment.

Lemma numAdd_assoc (a b c : num) :
  numAdd (numAdd a b) c = numAdd a (numAdd b c).
Proof.
  destruct a, b, c; simpl; try reflexivity. f_equal. lia.
Qed.

Lemma cartTotal_fold (items : list CartItem) (acc : num) :
  fold_left
    (fun total item =>
       numAdd total (numMul (quantity item) (Some (unitPrice item))))
    items acc
  = numAdd acc (lineSum items).
Proof.
  revert acc; induction items as [|x items IH]; intros acc; simpl.
  - destruct acc; simpl; [f_equal; lia|reflexivity].
  - rewrite IH. apply numAdd_assoc.
Qed.

Lemma cartTotal_lineSum (s : State) : cartTotal s = lineSum (cartItems s).
Proof.
  unfold cartTotal. rewrite cartTotal_fold.
  destruct (lineSum (cartItems s)); reflexivity.
Qed.

Lemma mutateFound_ids (p : CartItem -> bool) (f : CartItem -> CartItem)
  (items : list CartItem) :
  (forall x, productId (f x) = productId x) ->
  map productId (mutateFound p f items) = map productId items.
Proof.
  intros Hf. induction items as [|x items IH]; simpl.
  - reflexivity.
  - destruct (p x); simpl; [now rewrite Hf|now rewrite IH].
Qed.












Lemma lineSum_nan (target : string) (items : list CartItem)
  (item : CartItem) :
  find (inCart target) items = Some item ->
  lineSum (mutateFound (inCart target) (fun x => withQuantity x None) items)
  = None.
Proof.
  induction items as [|x items IH]; simpl; intros Hf.
  - discriminate.
  - destruct (inCart target x); simpl.
    + reflexivity.
    + rewrite (IH Hf).
      now destruct (numMul (quantity x) (Some (unitPrice x))).
Qed.

(** X13.  A quantity field that does not parse to a number ([parseInt]
    gives [NaN]) on a product of the cart is stored as it is: the line
    keeps its place with quantity and total [NaN], and the cart total
    becomes [NaN]. *)
Theorem update_quantity_nan (target : string) (s : State)
  (item : CartItem) :
  find (inCart target) (cartItems s) = Some item ->
  let s' := updateQuantity target None s in
  cartTotal s' = None
  /\ map productId (cartItems s') = map productId (cartItems s)
  /\ exists item',
       find (inCart target) (cartItems s') = Some item'
       /\ quantity item' = None /\ totalPrice item' = None.
Proof.
  intros Hf. cbv zeta. unfold updateQuantity. simpl. rewrite Hf.
  rewrite cartTotal_lineSum. simpl. split; [|split].
  - eapply lineSum_nan; eauto.
  - now apply mutateFound_ids.
  - exists (withQuantity item None). split; [|split; reflexivity].
    clear - Hf. induction (cartItems s) as [|x l IH]; simpl in *.
    + discriminate.
    + destruct (inCart target x) eqn:E.
      * injection Hf as ->. simpl. unfold inCart in *. simpl.
        now rewrite E.
      * simpl. rewrite E. now apply IH.
Qed.

Lemma update_quantity_nan_witness :
  let s :=
    run [ SearchResolved
            [ {| prodId := "p1"; prodName := "Widget"; prodCode := "W-1";
                 prodUnitPrice := 25 |} ];
          AddToCart "p1" ] initial in
  cartTotal (updateQuantity "p1" None s) = None.
Proof.
  intros s.
  exact (proj1 (update_quantity_nan "p1" s _ eq_refl)).
Defined.





End Cart.

(** * The ACH entry form *)

Lemma digitsOnly_digits (value : jsString) :
  Forall (fun c => RegExp.isDigit c = true) (AchPaymentEntry.digitsOnly value).
Proof.
  apply Forall_forall. intros c Hc.
  unfold AchPaymentEntry.digitsOnly, RegExp.removeAll in Hc.
  apply filter_In in Hc. destruct Hc as [_ Hc].
  now destruct (RegExp.isDigit c).
Qed.

Lemma digitsOnly_fixed (value : jsString) :
  Forall (fun c => RegExp.isDigit c = true) value ->
  AchPaymentEntry.digitsOnly value = value.
Proof.
  unfold AchPaymentEntry.digitsOnly, RegExp.removeAll.
  induction 1 as [|c l Hc _ IH]; simpl.
  - reflexivity.
  - rewrite Hc. simpl. now rewrite IH.
Qed.

Lemma ach_step_invariant (e : AchPaymentEntry.Event)
  (s : AchPaymentEntry.State) :
  AchPaymentEntry.DigitsOnly s ->
  AchPaymentEntry.DigitsOnly (AchPaymentEntry.step e s)
  /\ AchPaymentEntry.showAmount (AchPaymentEntry.step e s)
     = AchPaymentEntry.showAmount s.
Proof.
  intros [Hr [Ha Hc]].
  destruct e; simpl; try (split; [repeat split; assumption|reflexivity]);
    try (split; [repeat split; try assumption; apply digitsOnly_digits
                |reflexivity]).
  - unfold AchPaymentEntry.handleSubmit.
    destruct (negb allValid); [split; [repeat split; assumption|reflexivity]|].
    destruct (AchPaymentEntry.accountNumberMismatch s);
      [split; [repeat split; assumption|reflexivity]|].
    destruct (negb (AchPaymentEntry.authorized s));
      split; try reflexivity; repeat split; assumption.
  - split; [repeat split; constructor|reflexivity].
Qed.

Lemma ach_run_invariant (showAmount : bool)
  (es : list AchPaymentEntry.Event) :
  let s := AchPaymentEntry.run es (AchPaymentEntry.initial showAmount) in
  AchPaymentEntry.DigitsOnly s /\ AchPaymentEntry.showAmount s = showAmount.
Proof.
  cbv zeta. unfold AchPaymentEntry.run.
  induction es as [|e es IH] using rev_ind.
  - split; [repeat split; constructor|reflexivity].
  - rewrite fold_left_app. simpl. destruct IH as [IH1 IH2].
    destruct (ach_step_invariant e _ IH1) as [H1 H2].
    split; [exact H1|]. now rewrite H2.
Qed.

(** X15.  After any sequence of events on the ACH form, when the submit
    button is enabled the routing number is exactly nine decimal digits,
    the account number is at least four decimal digits and equals its
    confirmation, the debit is authorized, a name is given, nothing is
    being processed, and, where the form shows an amount, the amount is
    positive. *)
Theorem ach_submit_enabled (showAmount : bool)
  (es : list AchPaymentEntry.Event) :
  let s := AchPaymentEntry.run es (AchPaymentEntry.initial showAmount) in
  AchPaymentEntry.isSubmitDisabled s = false ->
  (List.length (AchPaymentEntry.routingNumber s) = 9%nat
   /\ Forall (fun c => RegExp.isDigit c = true)
        (AchPaymentEntry.routingNumber s))
  /\ ((4 <= List.length (AchPaymentEntry.accountNumber s))%nat
      /\ Forall (fun c => RegExp.isDigit c = true)
           (AchPaymentEntry.accountNumber s))
  /\ AchPaymentEntry.confirmAccountNumber s = AchPaymentEntry.accountNumber s
  /\ AchPaymentEntry.authorized s = true
  /\ AchPaymentEntry.nameOnAccount s <> []
  /\ AchPaymentEntry.isProcessing s = false
  /\ (showAmount = true -> 0 < AchPaymentEntry.amount s).
Proof.
  intros s Hd.
  destruct (ach_run_invariant showAmount es) as [[Hr [Ha _]] Hs].
  fold s in Hr, Ha, Hs.
  unfold AchPaymentEntry.isSubmitDisabled in Hd.
  repeat (apply orb_false_elim in Hd; destruct Hd as [Hd ?]).
  repeat match goal with
         | H : negb _ = false |- _ => apply negb_false_iff in H
         end.
  unfold AchPaymentEntry.accountNumberMismatch in *.
  repeat match goal with
         | H : AchPaymentEntry.truthy _ = true |- _ => rewrite H in *
         end.
  simpl in *.
  split; [split; [now apply Nat.eqb_eq|exact Hr]|].
  split; [split; [now apply Nat.ltb_ge|exact Ha]|].
  split.
  { unfold AchPaymentEntry.jsString_eqb in *.
    destruct (list_eq_dec N.eq_dec (AchPaymentEntry.accountNumber s)
                (AchPaymentEntry.confirmAccountNumber s));
      [now symmetry|discriminate]. }
  split; [assumption|].
  split.
  { destruct (AchPaymentEntry.nameOnAccount s); [discriminate|discriminate]. }
  split; [assumption|].
  intros ->. rewrite Hs in *. simpl in *.
  match goal with
  | H : _ || _ = false |- _ =>
      apply orb_false_elim in H; destruct H as [_ H];
      apply Z.leb_gt in H; exact H
  end.
Qed.

Lemma ach_submit_enabled_witness :
  let es :=
    [ AchPaymentEntry.NameChange (codes "Ada");
      AchPaymentEntry.RoutingChange (codes "021-000-021");
      AchPaymentEntry.AccountNumberChange (codes "12 34 56");
      AchPaymentEntry.ConfirmAccountChange (codes "123456");
      AchPaymentEntry.AmountChange (Some 25);
      AchPaymentEntry.AuthorizationChange true ] in
  let s := AchPaymentEntry.run es (AchPaymentEntry.initial true) in
  AchPaymentEntry.routingNumber s = codes "021000021"
  /\ List.length (AchPaymentEntry.routingNumber s) = 9%nat
  /\ AchPaymentEntry.confirmAccountNumber s = AchPaymentEntry.accountNumber s.
Proof.
  intros es s. split; [reflexivity|].
  destruct (ach_submit_enabled true es eq_refl) as [[H1 _] [_ [H3 _]]].
  split; [exact H1|exact H3].
Defined.

(** X16.  [handleSubmit] dispatches the submit event exactly when
    [validate] answers true for the same inputs.  The event carries the
    fields of [getAchDetails] with the save flag and the amount, its
    e-check type is CCD for a business checking account and WEB
    otherwise, and the form is left processing without an error; without
    an event the fields and the processing flag are untouched. *)
Theorem handleSubmit_dispatches_iff_validate (allValid : bool)
  (s : AchPaymentEntry.State) :
  let r := AchPaymentEntry.handleSubmit allValid s in
  (snd r <> None <-> AchPaymentEntry.validate allValid s = true)
  /\ (forall detail,
         snd r = Some detail ->
         AchPaymentEntry.achAccount detail = AchPaymentEntry.getAchDetails s
         /\ AchPaymentEntry.achSavePaymentMethod detail
            = AchPaymentEntry.savePaymentMethod s
         /\ AchPaymentEntry.achAmount detail = AchPaymentEntry.amount s
         /\ (AchPaymentEntry.acctEcheckType
               (AchPaymentEntry.achAccount detail) = "CCD"%string
             <-> AchPaymentEntry.accountType s = "businessChecking"%string)
         /\ AchPaymentEntry.isProcessing (fst r) = true
         /\ AchPaymentEntry.error (fst r) = None)
  /\ (snd r = None ->
      AchPaymentEntry.isProcessing (fst r) = AchPaymentEntry.isProcessing s
      /\ AchPaymentEntry.getAchDetails (fst r)
         = AchPaymentEntry.getAchDetails s).
Proof.
  cbv zeta. unfold AchPaymentEntry.handleSubmit, AchPaymentEntry.validate.
  destruct allValid; simpl.
  2:{ split; [split; [tauto|discriminate]|].
      split; [discriminate|auto]. }
  destruct (AchPaymentEntry.accountNumberMismatch s); simpl.
  { split; [split; [tauto|discriminate]|].
    split; [discriminate|auto]. }
  destruct (AchPaymentEntry.authorized s); simpl.
  2:{ split; [split; [tauto|discriminate]|].
      split; [discriminate|auto]. }
  split; [split; [reflexivity|discriminate]|].
  split; [|discriminate].
  intros detail [= <-]. simpl. repeat split; try reflexivity.
  - unfold AchPaymentEntry.echeckType.
    destruct (String.eqb_spec (AchPaymentEntry.accountType s)
                "businessChecking"); [auto|discriminate].
  - intros H. unfold AchPaymentEntry.echeckType. now rewrite H.
Qed.

(** * Card brands *)

Section CardBrands.

Local Open Scope N_scope.

Ltac split_chars :=
  repeat first
    [ match goal with
      | |- context [N.eqb ?x ?k] =>
          is_var x; destruct (N.eqb_spec x k); [subst x|]; cbn in *
      | H : context [N.eqb ?x ?k] |- _ =>
          is_var x; destruct (N.eqb_spec x k); [subst x|]; cbn in *
      end
    | match goal with
      | |- context [N.leb ?a ?b] =>
          destruct (N.leb_spec a b); cbn in *
      | H : context [N.leb ?a ?b] |- _ =>
          destruct (N.leb_spec a b); cbn in *
      end ].

Ltac first_chars number :=
  destruct number as [|?c [|?c [|?c [|?c ?rest]]]];
  unfold RegExp.test, PaymentForm.two, PaymentForm.twoRange in *;
  cbn in *.

Lemma paymentForm_match_detected (number : jsString) (brand : string)
  (pattern : RegExp.t) :
  In (brand, pattern) PaymentForm.patterns ->
  RegExp.test pattern number = true ->
  PaymentForm.detectCardType number = brand.
Proof.
  intros Hin Ht. unfold PaymentForm.detectCardType.
  cbn in Hin.
  repeat (destruct Hin as [Hin|Hin]; [injection Hin as <- <-|]);
    try contradiction;
    first_chars number; try discriminate;
    split_chars; try discriminate; try reflexivity; try lia.
Qed.

Lemma paymentForm_brands_distinct (brand : string) (p1 p2 : RegExp.t) :
  In (brand, p1) PaymentForm.patterns ->
  In (brand, p2) PaymentForm.patterns ->
  p1 = p2.
Proof.
  intros H1 H2. cbn in H1, H2.
  repeat (destruct H1 as [H1|H1]; [injection H1 as <- <-|]);
    try contradiction;
    repeat (destruct H2 as [H2|H2];
            [first [discriminate H2 | injection H2 as <-]|]);
    try contradiction; reflexivity.
Qed.

(** X17.  The card patterns of the payment form exclude one another: a
    brand is detected exactly when its own pattern matches the number,
    whatever the order of the patterns, and the empty string is returned
    exactly when no pattern matches. *)
Theorem card_brand_patterns_exclusive (number : jsString) :
  (forall brand pattern,
      In (brand, pattern) PaymentForm.patterns ->
      (RegExp.test pattern number = true
       <-> PaymentForm.detectCardType number = brand))
  /\ (PaymentForm.detectCardType number = ""%string
      <-> forall brand pattern,
            In (brand, pattern) PaymentForm.patterns ->
            RegExp.test pattern number = false).
Proof.
  split.
  - intros brand pattern Hin. split.
    + now apply paymentForm_match_detected.
    + unfold PaymentForm.detectCardType.
      destruct (find _ PaymentForm.patterns) as [[b p]|] eqn:Hf.
      * intros ->. apply find_some in Hf. destruct Hf as [Hp Ht].
        now rewrite (paymentForm_brands_distinct brand pattern p Hin Hp).
      * intros <-. exfalso. clear - Hin. cbn in Hin.
        repeat (destruct Hin as [Hin|Hin]; [discriminate Hin|]).
        exact Hin.
  - split.
    + intros He brand pattern Hin.
      destruct (RegExp.test pattern number) eqn:Ht; [|reflexivity].
      rewrite (paymentForm_match_detected number brand pattern Hin Ht) in He.
      exfalso. clear - Hin He. subst brand. cbn in Hin.
      repeat (destruct Hin as [Hin|Hin]; [discriminate Hin|]).
      exact Hin.
    + intros Hnone. unfold PaymentForm.detectCardType.
      destruct (find _ PaymentForm.patterns) as [[b p]|] eqn:Hf;
        [|reflexivity].
      apply find_some in Hf. destruct Hf as [Hp Ht]. simpl in Ht.
      rewrite (Hnone b p Hp) in Ht. discriminate.
Qed.

Lemma card_brand_patterns_exclusive_witness :
  PaymentForm.detectCardType (codes "6011000000000004") = "Discover"%string.
Proof.
  apply (proj1 (card_brand_patterns_exclusive (codes "6011000000000004"))
           "Discover"%string
           (RegExp.Alt
              (RegExp.Cat (PaymentForm.two "6" "0") (PaymentForm.two "1" "1"))
              (RegExp.Alt (PaymentForm.two "6" "5")
                 (PaymentForm.twoRange "6" "4" "4" "9")))).
  - do 3 right. left. reflexivity.
  - reflexivity.
Defined.

(** X18.  The call-center form and the payment form on the same card
    number, white space aside: they agree on Visa and on American Express
    (named Amex by the call-center form), what the call-center form calls
    Mastercard or Discover the payment form calls the same, and the
    brands only the payment form knows (Diners Club, JCB, UnionPay) are
    Unknown to the call-center form. *)
Theorem card_brand_detectors_agree (value : jsString) :
  value <> [] ->
  let a := CallCenterPayment.detectCardType (Some value) in
  let b :=
    PaymentForm.detectedCardType (PaymentForm.handleCardNumberInput value) in
  (a = Some "Visa"%string <-> b = "Visa"%string)
  /\ (a = Some "Amex"%string <-> b = "American Express"%string)
  /\ (a = Some "Mastercard"%string -> b = "Mastercard"%string)
  /\ (a = Some "Discover"%string -> b = "Discover"%string)
  /\ (b = "Diners Club"%string \/ b = "JCB"%string \/ b = "UnionPay"%string
      -> a = Some "Unknown"%string)
  /\ a <> None.
Proof.
  intros Hne. destruct value as [|v0 vs]; [contradiction|].
  cbv zeta.
  unfold CallCenterPayment.detectCardType, PaymentForm.handleCardNumberInput,
    PaymentForm.detectedCardType, PaymentForm.detectCardType.
  cbv zeta.
  set (num := RegExp.removeAll RegExp.isWhiteSpace (v0 :: vs)).
  clearbody num. clear.
  first_chars num; split_chars;
    repeat split; intros;
    repeat match goal with
           | H : _ \/ _ |- _ => destruct H
           end;
    try discriminate; try reflexivity; try lia.
Qed.

Lemma card_brand_detectors_agree_witness :
  CallCenterPayment.detectCardType (Some (codes "3782 822463 10005"))
  = Some "Amex"%string
  /\ PaymentForm.detectedCardType
       (PaymentForm.handleCardNumberInput (codes "3782 822463 10005"))
     = "American Express"%string.
Proof.
  split; [reflexivity|].
  assert (Hne : codes "3782 822463 10005" <> []) by discriminate.
  exact (proj1 (proj1 (proj2 (card_brand_detectors_agree _ Hne))) eq_refl).
Defined.

End CardBrands.

(** * Further properties of the credit walk and of selection *)

Lemma handleSubmit_dispatches_iff_validate_witness :
  let s :=
    AchPaymentEntry.run
      [ AchPaymentEntry.AccountTypeChange "businessChecking";
        AchPaymentEntry.AccountNumberChange (codes "123456");
        AchPaymentEntry.ConfirmAccountChange (codes "123456");
        AchPaymentEntry.AuthorizationChange true ]
      (AchPaymentEntry.initial false) in
  exists detail,
    snd (AchPaymentEntry.handleSubmit true s) = Some detail
    /\ AchPaymentEntry.acctEcheckType (AchPaymentEntry.achAccount detail)
       = "CCD"%string.
Proof.
  intros s. eexists. split; [reflexivity|].
  refine (proj2 (proj1 (proj2 (proj2 (proj2
            (proj1 (proj2 (handleSubmit_dispatches_iff_validate true s))
               _ eq_refl))))) eq_refl).
Defined.





Lemma find_none_iff {A} (f : A -> bool) (l : list A) :
  find f l = None <-> forall x, In x l -> f x = false.
Proof.
  split; [apply find_none|].
  induction l as [|x l IH]; simpl; intros H.
  - reflexivity.
  - rewrite (H x) by now left. apply IH. intros y Hy. apply H. now right.
Qed.

(** X20.  Selecting throws exactly for an id that no loaded invoice has,
    and then nothing is stored; deselecting never throws, and deselecting
    an invoice that is not selected leaves the selection map as it is. *)
Theorem select_throws_only_on_unknown_invoice (target : string)
  (s : InvoiceSelector.State) :
  (InvoiceSelector.handleInvoiceSelect target true s = None
   <-> ~ In target (map InvoiceSelector.id (InvoiceSelector.invoices s)))
  /\ (exists s' d,
         InvoiceSelector.handleInvoiceSelect target false s = Some (s', d)
         /\ (JSMap.has target (InvoiceSelector.selectedInvoices s) = false ->
             InvoiceSelector.selectedInvoices s'
             = InvoiceSelector.selectedInvoices s)).
Proof.
  split.
  - unfold InvoiceSelector.handleInvoiceSelect.
    rewrite findInvoice_select.
    destruct (InvoiceSelector.findInvoice target (InvoiceSelector.invoices s))
      as [inv|] eqn:Hf; simpl.
    + split; [discriminate|]. intros Hn. exfalso. apply Hn.
      apply find_some in Hf. destruct Hf as [Hin He].
      apply String.eqb_eq in He. rewrite <- He. now apply in_map.
    + split; [|reflexivity]. intros _ Hin.
      apply in_map_iff in Hin. destruct Hin as [inv [Hi Hin]].
      pose proof (proj1 (find_none_iff _ _) Hf inv Hin) as H.
      simpl in H. rewrite Hi, String.eqb_refl in H. discriminate.
  - destruct (handleInvoiceSelect_unchecked target s) as [s2 [H2 M2]].
    exists s2, (InvoiceSelector.notifySelectionChange s2).
    split; [exact H2|]. intros Hn. rewrite M2.
    now apply JSMap_delete_absent.
Qed.

Lemma select_throws_only_on_unknown_invoice_witness :
  let s :=
    InvoiceSelector.loadInvoices
      [ {| InvoiceSelector.openId := "inv1";
           InvoiceSelector.openTotalAmount := 100;
           InvoiceSelector.openAmountPaid := 0;
           InvoiceSelector.openBalanceDue := 100 |} ]
      (InvoiceSelector.initial []) in
  InvoiceSelector.handleInvoiceSelect "inv9" true s = None.
Proof.
  intros s.
  apply (proj2 (proj1 (select_throws_only_on_unknown_invoice "inv9" s))).
  simpl. intros [H|[]]. discriminate H.
Defined.
